(** * SmartOS: intent classification, action dispatch and metrics

    A shallow embedding of the command pipeline of [smartos_main.py]
    ([NLUProcessor.parse_command], [TaskExecutor.execute_intent] and its
    handlers, [SmartOSInterface.process_command]) and of
    [MetricsCollector.calculate_performance_metrics] from
    [smartos_metrics_dashboard.py], followed by the properties proved of them.

    Conventions of the embedding.
    - A Python [str] is a [string]; a character is a code point below 256.
      On these [str.lower] maps character to character, so an index taken
      in the lower-cased text designates the same character of the text.
      Texts with code points beyond that range, where [str.lower] can
      lengthen a text (U+0130), are outside the embedding, and the
      properties that compare indices say nothing of them.
    - A Python [float] is a binary64 primitive [float]; a Python [int] is a [Z].
    - A [dict] read with fixed keys is a record; a key that may be absent is an
      [option] field, and reading it with [d[k]] raises [KeyError] when it is
      [None] while [d.get(k, default)] falls back to the default.
    - Effects (file system, process launches, the clock, the logger, the
      console, the execution log) act on an explicit [World]; a Python
      exception is the [Raise] outcome of the [Py] monad. *)

From Stdlib Require Import ZArith List String Ascii Floats Lia Bool.
From stdpp Require Import base option strings gmap list.

Set Warnings "-inexact-float".
Local Open Scope string_scope.

(** ** Python string operations *)

Module PyStr.

(** [str.isspace] on one code point below 256. *)
Definition isspace (c : ascii) : bool :=
  let n := nat_of_ascii c in
  ((9 <=? n) && (n <=? 13) || (28 <=? n) && (n <=? 32)
   || (n =? 133) || (n =? 160))%nat.

(** [str.lower] on one code point below 256: always one code point. *)
Definition lower_char (c : ascii) : ascii :=
  let n := nat_of_ascii c in
  if ((65 <=? n) && (n <=? 90)
      || (192 <=? n) && (n <=? 222) && negb (n =? 215))%nat
  then ascii_of_nat (n + 32) else c.

Fixpoint lower (s : string) : string :=
  match s with
  | EmptyString => EmptyString
  | String c s' => String (lower_char c) (lower s')
  end.

Fixpoint lstrip (s : string) : string :=
  match s with
  | EmptyString => EmptyString
  | String c s' => if isspace c then lstrip s' else s
  end.

Fixpoint rstrip (s : string) : string :=
  match s with
  | EmptyString => EmptyString
  | String c s' =>
      match rstrip s' with
      | EmptyString => if isspace c then EmptyString else String c EmptyString
      | r => String c r
      end
  end.

(** [s.strip()] *)
Definition strip (s : string) : string := rstrip (lstrip s).

(** [s.startswith(p)] *)
Fixpoint startswith (p s : string) : bool :=
  match p, s with
  | EmptyString, _ => true
  | String a p', String b s' => Ascii.eqb a b && startswith p' s'
  | String _ _, EmptyString => false
  end.

(** [p in s] *)
Fixpoint contains (p s : string) : bool :=
  startswith p s ||
  match s with
  | EmptyString => false
  | String _ s' => contains p s'
  end.

(** [s.find(p)]: the lowest index at which [p] occurs, [-1] when absent. *)
Fixpoint find (p s : string) : Z :=
  if startswith p s then 0%Z
  else match s with
       | EmptyString => (-1)%Z
       | String _ s' => let r := find p s' in
                        if (r <? 0)%Z then (-1)%Z else (1 + r)%Z
       end.

Fixpoint drop (n : nat) (s : string) : string :=
  match n, s with
  | O, _ => s
  | S _, EmptyString => EmptyString
  | S n', String _ s' => drop n' s'
  end.

(** [s[i:]], negative [i] counting from the end. *)
Definition slice_from (i : Z) (s : string) : string :=
  if (i <? 0)%Z
  then drop (Z.to_nat (Z.of_nat (String.length s) + i)) s
  else drop (Z.to_nat i) s.

Fixpoint split_go (s tok : string) : list string :=
  match s with
  | EmptyString => match tok with EmptyString => [] | _ => [tok] end
  | String c s' =>
      if isspace c
      then match tok with
           | EmptyString => split_go s' EmptyString
           | _ => tok :: split_go s' EmptyString
           end
      else split_go s' (tok ++ String c EmptyString)
  end.

(** [s.split()]: the maximal runs of non-whitespace characters. *)
Definition split (s : string) : list string := split_go s EmptyString.

(** [s.replace(a, b)] for one-character [a] and [b]. *)
Fixpoint replace_char (a b : ascii) (s : string) : string :=
  match s with
  | EmptyString => EmptyString
  | String c s' =>
      String (if Ascii.eqb c a then b else c) (replace_char a b s')
  end.

(** [x in l] for a list of strings. *)
Definition mem (x : string) (l : list string) : bool :=
  existsb (String.eqb x) l.

(** [pre ++ w ++ post] splits [s] at the first place where [s], case
    folded, reads [p]. *)
Definition first_occurrence (p s pre w post : string) : Prop :=
  s = pre ++ w ++ post /\ lower w = p /\
  forall pre' w' post',
    s = pre' ++ w' ++ post' -> lower w' = p ->
    (String.length pre <= String.length pre')%nat.

End PyStr.

(** ** Intents and execution results *)

(** The intent dictionary.  [parse_command] fills every key; a hand-built
    intent may lack some, which the handlers answer with [KeyError]. *)
Record Intent := mkIntent {
  action : option string;
  target : option string;
  parameters : option (gmap string string);
  confidence : option float;
  original_command : option string
}.

Definition set_action (a : string) (i : Intent) : Intent :=
  mkIntent (Some a) (target i) (parameters i) (confidence i)
           (original_command i).

Definition set_target (t : string) (i : Intent) : Intent :=
  mkIntent (action i) (Some t) (parameters i) (confidence i)
           (original_command i).

Definition set_confidence (c : float) (i : Intent) : Intent :=
  mkIntent (action i) (target i) (parameters i) (Some c)
           (original_command i).

(** [intent["parameters"][k] = v] *)
Definition set_parameter (k v : string) (i : Intent) : Intent :=
  mkIntent (action i) (target i) (insert k v <$> parameters i)
           (confidence i) (original_command i).

(** ** NLUProcessor *)

Module NLU.
Import PyStr.

(** The table of [_load_intent_patterns]; a nested dict iterated with
    [.items()] is the list of its pairs in insertion order. *)
Record Patterns := mkPatterns {
  open_keywords : list string;
  open_apps : list (string * list string);
  file_keywords : list string;
  file_actions : list (string * list string);
  system_keywords : list string;
  system_wifi : list string;
  system_bluetooth : list string;
  system_volume : list string;
  content_keywords : list string;
  content_types : list string
}.

Definition intent_patterns : Patterns := {|
  open_keywords := ["open"; "launch"; "start"; "run"];
  open_apps :=
    [ ("notepad", ["notepad"; "text editor"; "note"]);
      ("calculator", ["calculator"; "calc"]);
      ("browser", ["browser"; "chrome"; "firefox"; "edge"; "internet"]);
      ("explorer", ["explorer"; "file manager"; "files"; "folder"]);
      ("cmd", ["command prompt"; "cmd"; "terminal"; "console"]);
      ("powershell", ["powershell"; "ps"]);
      ("code", ["vscode"; "visual studio code"; "code editor"; "vs code"]);
      ("word", ["word"; "microsoft word"; "document"]);
      ("excel", ["excel"; "spreadsheet"; "microsoft excel"]) ];
  file_keywords := ["create"; "write"; "save"; "delete"; "copy"; "move"];
  file_actions :=
    [ ("create", ["create"; "make"; "new"]);
      ("write", ["write"; "type"; "add content"; "insert"]);
      ("save", ["save"; "store"]);
      ("delete", ["delete"; "remove"; "erase"]);
      ("copy", ["copy"; "duplicate"]);
      ("move", ["move"; "transfer"; "relocate"]) ];
  system_keywords := ["shutdown"; "restart"; "sleep"; "hibernate"; "lock"];
  system_wifi := ["wifi"; "wireless"; "internet connection"; "network"];
  system_bluetooth := ["bluetooth"; "bt"];
  system_volume := ["volume"; "sound"; "audio"];
  content_keywords :=
    ["write essay"; "create document"; "compose"; "draft"];
  content_types := ["essay"; "document"; "letter"; "report"; "email"]
|}.

(** [any(alias in command_lower for alias in aliases)] *)
Definition any_in (aliases : list string) (command_lower : string) : bool :=
  existsb (fun alias => contains alias command_lower) aliases.

(** The loop over [.items()] that stops at the first entry one of whose
    aliases occurs in the text. *)
Definition first_target (table : list (string * list string))
    (command_lower : string) : option string :=
  fst <$> List.find (fun e => any_in (snd e) command_lower) table.

(** The loop over [enumerate(words)]: the word after the first "file" or
    "document" that has a successor. *)
Fixpoint filename_after (words : list string) : option string :=
  match words with
  | [] => None
  | word :: rest =>
      match rest with
      | next :: _ =>
          if mem (lower word) ["file"; "document"] then Some next
          else filename_after rest
      | [] => None
      end
  end.

(** [intent["action"] == "unknown"] *)
Definition action_is_unknown (i : Intent) : bool :=
  match action i with
  | Some a => String.eqb a "unknown"
  | None => false
  end.

(** "Application opening detection": the first keyword found decides the
    action, the first application with an alias in the text the target. *)
Definition detect_open (P : Patterns) (command_lower : string)
    (intent : Intent) : Intent :=
  if any_in (open_keywords P) command_lower then
    let intent := set_action "open_application" intent in
    match first_target (open_apps P) command_lower with
    | Some app => set_confidence 0.9 (set_target app intent)
    | None => intent
    end
  else intent.

(** "File operations detection", entered when the action is still
    unknown. *)
Definition detect_file (P : Patterns) (command command_lower : string)
    (intent : Intent) : Intent :=
  if any_in (file_keywords P) command_lower then
    let intent := set_action "file_operation" intent in
    match first_target (file_actions P) command_lower with
    | Some act =>
        let intent := set_confidence 0.8 (set_target act intent) in
        if contains "file" command_lower
           || contains "document" command_lower
        then match filename_after (split command) with
             | Some name => set_parameter "filename" name intent
             | None => intent
             end
        else intent
    | None => intent
    end
  else intent.

(** "System control detection": the keyword found is the target. *)
Definition detect_system (P : Patterns) (command_lower : string)
    (intent : Intent) : Intent :=
  match List.find (fun keyword => contains keyword command_lower)
                  (system_keywords P) with
  | Some keyword =>
      set_confidence 0.85
        (set_target keyword (set_action "system_control" intent))
  | None => intent
  end.

(** "Content creation detection": a keyword matches when any of its words
    occurs in the text. *)
Definition detect_content (P : Patterns) (command command_lower : string)
    (intent : Intent) : Intent :=
  if existsb (fun keyword => any_in (split keyword) command_lower)
             (content_keywords P)
  then
    let intent := set_action "content_creation" intent in
    match List.find (fun content_type => contains content_type command_lower)
                    (content_types P) with
    | Some content_type =>
        let intent := set_confidence 0.75 (set_target content_type intent) in
        if contains "about" command_lower then
          let topic_start := (find "about" command_lower + 5)%Z in
          set_parameter "topic" (strip (slice_from topic_start command))
                        intent
        else intent
    | None => intent
    end
  else intent.

(** The intent before any rule group has matched. *)
Definition unknown_intent (command : string) : Intent :=
  {| action := Some "unknown"; target := Some "";
     parameters := Some ∅; confidence := Some 0%float;
     original_command := Some command |}.

Definition parse_command_with (P : Patterns) (command : string) : Intent :=
  let command_lower := strip (lower command) in
  let intent := unknown_intent command in
  let intent := detect_open P command_lower intent in
  let intent :=
    if action_is_unknown intent
    then detect_file P command command_lower intent else intent in
  let intent :=
    if action_is_unknown intent
    then detect_system P command_lower intent else intent in
  let intent :=
    if action_is_unknown intent
    then detect_content P command command_lower intent else intent in
  intent.

(** [NLUProcessor.parse_command], on the table loaded at construction. *)
Definition parse_command (command : string) : Intent :=
  parse_command_with intent_patterns command.

End NLU.

(** ** The world the assistant acts on *)

Inductive Platform := Windows | Darwin | Linux.

(** A process started with [subprocess.Popen] (through the shell, or from an
    argument vector) or run to completion with [subprocess.run]. *)
Inductive Launch :=
| PopenShell (command : string)
| Popen (argv : list string)
| Run (argv : list string).

Inductive FsOp := Touch | OpenWrite | Remove.

Inductive PyExn :=
| KeyError (key : string)
| OSError (text : string)
| ZeroDivisionError (text : string).

(** [str(e)] *)
Definition exn_str (e : PyExn) : string :=
  match e with
  | KeyError key => "'" ++ key ++ "'"
  | OSError text => text
  | ZeroDivisionError text => text
  end.

(** The dict a handler returns: [{"success": ..., "message": ...}]. *)
Record HandlerResult := mkHandlerResult {
  h_success : bool;
  h_message : string
}.

(** The dict [execute_intent] returns.  [error] and [screenshot] are read
    with [.get]: an absent key and [None] are both [None] here. *)
Record Result := mkResult {
  success : bool;
  message : string;
  execution_time : float;
  error : option string;
  screenshot : option string
}.

(** [SmartOSCore.execution_metrics] *)
Record Metrics := mkMetrics {
  total_commands : Z;
  successful_commands : Z;
  failed_commands : Z;
  average_response_time : float
}.

(** One entry of the execution log, as [log_execution_result] writes it and
    as the metrics collector reads it back ([d.get(key, default)]). *)
Record LogEntry := mkLogEntry {
  entry_timestamp : option string;
  entry_command : option string;
  entry_intent : option Intent;
  entry_result : option Result;
  entry_execution_time : option float
}.

Inductive LogLine :=
| InfoProcessing (command : string)
| InfoParsed (intent : Intent)
| ErrorExecution (text : string).

(** What the operating system answers; fixed during a run. *)
Record Env := mkEnv {
  platform : Platform;
  (** the n-th reading of [time.time()] *)
  clock_at : nat -> float;
  (** [datetime.now().isoformat()] after n clock readings *)
  isoformat_at : nat -> string;
  (** the text of the exception when a launch is refused *)
  spawn_error : Launch -> option string;
  (** the text of the exception when a file operation is refused *)
  fs_error : FsOp -> string -> option string;
  (** the path and the image [_capture_screenshot] saves; [None] when the
      capture fails, which [_capture_screenshot] answers with [None] *)
  grab : option (string * string)
}.

(** [SmartOSCore.config], the options the pipeline reads. *)
Record Config := mkConfig {
  voice_enabled : bool;
  screenshot_on_error : bool
}.

Record World := mkWorld {
  files : gmap string string;
  spawned : list Launch;
  clock_reads : nat;
  logged : list LogLine;
  console : list string;
  spoken : list string;
  exec_log : list LogEntry;
  metrics : Metrics
}.

Definition with_files (f : gmap string string) (w : World) : World :=
  mkWorld f (spawned w) (clock_reads w) (logged w) (console w) (spoken w)
          (exec_log w) (metrics w).
Definition with_spawned (l : list Launch) (w : World) : World :=
  mkWorld (files w) l (clock_reads w) (logged w) (console w) (spoken w)
          (exec_log w) (metrics w).
Definition with_clock_reads (n : nat) (w : World) : World :=
  mkWorld (files w) (spawned w) n (logged w) (console w) (spoken w)
          (exec_log w) (metrics w).
Definition with_logged (l : list LogLine) (w : World) : World :=
  mkWorld (files w) (spawned w) (clock_reads w) l (console w) (spoken w)
          (exec_log w) (metrics w).
Definition with_console (l : list string) (w : World) : World :=
  mkWorld (files w) (spawned w) (clock_reads w) (logged w) l (spoken w)
          (exec_log w) (metrics w).
Definition with_spoken (l : list string) (w : World) : World :=
  mkWorld (files w) (spawned w) (clock_reads w) (logged w) (console w) l
          (exec_log w) (metrics w).
Definition with_exec_log (l : list LogEntry) (w : World) : World :=
  mkWorld (files w) (spawned w) (clock_reads w) (logged w) (console w)
          (spoken w) l (metrics w).
Definition with_metrics (m : Metrics) (w : World) : World :=
  mkWorld (files w) (spawned w) (clock_reads w) (logged w) (console w)
          (spoken w) (exec_log w) m.

(** ** Computations that may raise *)

Inductive Outcome (A : Type) :=
| Ret (a : A)
| Raise (e : PyExn).
Arguments Ret {A} a.
Arguments Raise {A} e.

Definition Py (A : Type) : Type := World -> Outcome A * World.

Definition ret {A} (a : A) : Py A := fun w => (Ret a, w).
Definition raise {A} (e : PyExn) : Py A := fun w => (Raise e, w).
Definition bind {A B} (m : Py A) (k : A -> Py B) : Py B :=
  fun w => match m w with
           | (Ret a, w') => k a w'
           | (Raise e, w') => (Raise e, w')
           end.

(** [try: m  except Exception as e: h e] *)
Definition try_except {A} (m : Py A) (h : PyExn -> Py A) : Py A :=
  fun w => match m w with
           | (Ret a, w') => (Ret a, w')
           | (Raise e, w') => h e w'
           end.

Definition modify (f : World -> World) : Py unit := fun w => (Ret tt, f w).

Global Instance py_ret : MRet Py := @ret.
Global Instance py_bind : MBind Py := fun A B k m => bind m k.
Global Instance py_fmap : FMap Py :=
  fun A B f m => bind m (fun a => ret (f a)).

(** [d[key]] on a key that may be absent. *)
Definition getitem {A} (key : string) (field : option A) : Py A :=
  match field with
  | Some v => ret v
  | None => raise (KeyError key)
  end.

(** [float(n)] for an [int]: the nearest binary64 value.  (Beyond the
    binary64 range Python raises [OverflowError]; a counter does not get
    there.) *)
Definition float_of_int (n : Z) : float :=
  SF2Prim (binary_normalize prec emax n 0 false).

(** [x / n] for a [float] and an [int]. *)
Definition truediv (x : float) (n : Z) : Py float :=
  if (n =? 0)%Z then raise (ZeroDivisionError "float division by zero")
  else ret (x / float_of_int n)%float.

Definition nl : string := String (ascii_of_nat 10) EmptyString.

(** ** TaskExecutor and SmartOSInterface *)

Section Pipeline.
Import PyStr.

Variable env : Env.
Variable config : Config.

(** [time.time()] *)
Definition time_time : Py float :=
  fun w => (Ret (clock_at env (clock_reads w)),
            with_clock_reads (S (clock_reads w)) w).

Definition spawn (l : Launch) : Py unit :=
  fun w => match spawn_error env l with
           | Some text => (Raise (OSError text), w)
           | None => (Ret tt, with_spawned (spawned w ++ [l]) w)
           end.

(** [os.path.exists(path)] *)
Definition path_exists (path : string) : Py bool :=
  fun w => (Ret (bool_decide (is_Some (files w !! path))), w).

(** [Path(path).touch()]: creates the file empty, keeps an existing one. *)
Definition path_touch (path : string) : Py unit :=
  fun w => match fs_error env Touch path with
           | Some text => (Raise (OSError text), w)
           | None =>
               (Ret tt,
                match files w !! path with
                | Some _ => w
                | None => with_files (<[path := ""]> (files w)) w
                end)
           end.

(** [with open(path, 'w') as f: f.write(content)], as one step: [open] is
    refused and nothing changes, or the file is opened and the content
    written.  A failure after [open], which leaves the file truncated, has
    no counterpart here. *)
Definition write_file (path content : string) : Py unit :=
  fun w => match fs_error env OpenWrite path with
           | Some text => (Raise (OSError text), w)
           | None => (Ret tt, with_files (<[path := content]> (files w)) w)
           end.

(** [os.remove(path)] *)
Definition os_remove (path : string) : Py unit :=
  fun w => match fs_error env Remove path with
           | Some text => (Raise (OSError text), w)
           | None => (Ret tt, with_files (delete path (files w)) w)
           end.

Definition logger (line : LogLine) : Py unit :=
  modify (fun w => with_logged (logged w ++ [line]) w).

Definition _get_app_commands : gmap string string :=
  match platform env with
  | Windows =>
      list_to_map
        [ ("notepad", "notepad.exe"); ("calculator", "calc.exe");
          ("browser", "start chrome"); ("explorer", "explorer.exe");
          ("cmd", "cmd.exe"); ("powershell", "powershell.exe");
          ("code", "code"); ("word", "winword.exe");
          ("excel", "excel.exe") ]
  | Darwin =>
      list_to_map
        [ ("notepad", "open -a TextEdit");
          ("calculator", "open -a Calculator");
          ("browser", "open -a Safari"); ("explorer", "open -a Finder");
          ("cmd", "open -a Terminal"); ("code", "code") ]
  | Linux =>
      list_to_map
        [ ("notepad", "gedit"); ("calculator", "gnome-calculator");
          ("browser", "firefox"); ("explorer", "nautilus");
          ("cmd", "gnome-terminal"); ("code", "code") ]
  end.

Definition is_windows : bool :=
  match platform env with Windows => true | _ => false end.

Definition _execute_app_launch (intent : Intent) : Py HandlerResult :=
  app_name ← getitem "target" (target intent);
  match _get_app_commands !! app_name with
  | None | Some EmptyString =>
      ret (mkHandlerResult false
             ("Application '" ++ app_name ++ "' not supported or not found"))
  | Some command =>
      try_except
        (spawn (if is_windows then PopenShell command
                else Popen (split command));;
         ret (mkHandlerResult true ("Successfully launched " ++ app_name)))
        (fun e =>
           ret (mkHandlerResult false
                  ("Failed to launch " ++ app_name ++ ": " ++ exn_str e)))
  end.

Definition _execute_file_operation (intent : Intent) : Py HandlerResult :=
  operation ← getitem "target" (target intent);
  params ← getitem "parameters" (parameters intent);
  let filename := default "untitled.txt" (params !! "filename") in
  try_except
    (if String.eqb operation "create" then
       path_touch filename;;
       ret (mkHandlerResult true ("Created file: " ++ filename))
     else if String.eqb operation "write" then
       let content := default "Sample content" (params !! "content") in
       write_file filename content;;
       ret (mkHandlerResult true ("Written content to: " ++ filename))
     else if String.eqb operation "delete" then
       present ← path_exists filename;
       if present : bool then
         os_remove filename;;
         ret (mkHandlerResult true ("Deleted file: " ++ filename))
       else
         ret (mkHandlerResult false ("File not found: " ++ filename))
     else
       ret (mkHandlerResult false
              ("File operation '" ++ operation ++ "' not implemented")))
    (fun e =>
       ret (mkHandlerResult false
              ("File operation failed: " ++ exn_str e))).

Definition _execute_system_control (intent : Intent) : Py HandlerResult :=
  act ← getitem "target" (target intent);
  try_except
    ((if is_windows then
        if String.eqb act "shutdown" then
          spawn (Run ["shutdown"; "/s"; "/t"; "60"])
        else if String.eqb act "restart" then
          spawn (Run ["shutdown"; "/r"; "/t"; "60"])
        else if String.eqb act "lock" then
          spawn (Run ["rundll32.exe"; "user32.dll,LockWorkStation"])
        else ret tt
      else
        if String.eqb act "shutdown" then
          spawn (Run ["sudo"; "shutdown"; "-h"; "+1"])
        else if String.eqb act "restart" then
          spawn (Run ["sudo"; "shutdown"; "-r"; "+1"])
        else if String.eqb act "lock" then
          spawn (Run ["gnome-screensaver-command"; "-l"])
        else ret tt);;
     ret (mkHandlerResult true ("System " ++ act ++ " initiated")))
    (fun e =>
       ret (mkHandlerResult false
              ("System control failed: " ++ exn_str e))).

Definition content_templates (topic : string) : gmap string string :=
  list_to_map
    [ ("essay", "# Essay on " ++ topic ++ nl ++ nl ++ "Introduction:"
                ++ nl ++ nl ++ "Body:" ++ nl ++ nl ++ "Conclusion:");
      ("document", "Document: " ++ topic ++ nl ++ nl
                   ++ "Content goes here...");
      ("letter", "Dear [Recipient]," ++ nl ++ nl ++ "Regarding: " ++ topic
                 ++ nl ++ nl ++ "Sincerely," ++ nl ++ "[Your Name]");
      ("report", "# Report: " ++ topic ++ nl ++ nl
                 ++ "## Executive Summary" ++ nl ++ nl ++ "## Findings"
                 ++ nl ++ nl ++ "## Recommendations") ].

Definition _execute_content_creation (intent : Intent) : Py HandlerResult :=
  content_type ← getitem "target" (target intent);
  params ← getitem "parameters" (parameters intent);
  let topic := default "general topic" (params !! "topic") in
  let content := default ("Content about " ++ topic)
                         (content_templates topic !! content_type) in
  let filename :=
    content_type ++ "_" ++ replace_char " " "_" topic ++ ".txt" in
  try_except
    (write_file filename content;;
     spawn (Popen [if is_windows then "notepad.exe" else "gedit";
                   filename]);;
     ret (mkHandlerResult true
            ("Created " ++ content_type ++ " about " ++ topic ++ ": "
             ++ filename)))
    (fun e =>
       ret (mkHandlerResult false
              ("Content creation failed: " ++ exn_str e))).

(** The capture catches every fault of its own and answers [None]. *)
Definition _capture_screenshot : Py (option string) :=
  fun w => match grab env with
           | Some (path, image) =>
               (Ret (Some path), with_files (<[path := image]> (files w)) w)
           | None => (Ret None, w)
           end.

(** The dict a handler returned, its other keys absent. *)
Definition of_handler (h : HandlerResult) : Result :=
  mkResult (h_success h) (h_message h) 0 None None.

Definition with_message (m : string) (r : Result) : Result :=
  mkResult (success r) m (execution_time r) (error r) (screenshot r).
Definition with_execution_time (t : float) (r : Result) : Result :=
  mkResult (success r) (message r) t (error r) (screenshot r).
Definition with_error (e : option string) (r : Result) : Result :=
  mkResult (success r) (message r) (execution_time r) e (screenshot r).
Definition with_screenshot (p : option string) (r : Result) : Result :=
  mkResult (success r) (message r) (execution_time r) (error r) p.

Definition initial_result : Result := mkResult false "" 0 None None.

(** The branch on [intent["action"]] inside the [try]. *)
Definition dispatch (intent : Intent) : Py Result :=
  a ← getitem "action" (action intent);
  if String.eqb a "open_application" then
    of_handler <$> _execute_app_launch intent
  else if String.eqb a "file_operation" then
    of_handler <$> _execute_file_operation intent
  else if String.eqb a "system_control" then
    of_handler <$> _execute_system_control intent
  else if String.eqb a "content_creation" then
    of_handler <$> _execute_content_creation intent
  else
    command ← getitem "original_command" (original_command intent);
    ret (with_message ("Unknown command: " ++ command) initial_result).

Definition execute_intent (intent : Intent) : Py Result :=
  start_time ← time_time;
  try_except
    (result ← dispatch intent;
     now ← time_time;
     ret (with_execution_time (now - start_time)%float result))
    (fun e =>
       let result := with_error (Some (exn_str e)) initial_result in
       now ← time_time;
       let result := with_execution_time (now - start_time)%float result in
       logger (ErrorExecution ("Execution error: " ++ exn_str e));;
       if screenshot_on_error config then
         shot ← _capture_screenshot;
         ret (with_screenshot shot result)
       else ret result).

(** [speak] says the text when a voice engine exists and prints it. *)
Definition speak (text : string) : Py unit :=
  modify (fun w => with_console (console w ++ ["SmartOS: " ++ text])
                     (with_spoken (spoken w ++ [text]) w)).

Definition print (line : string) : Py unit :=
  modify (fun w => with_console (console w ++ [line]) w).

Definition respond (response : string) : Py unit :=
  if voice_enabled config then speak response
  else print ("SmartOS: " ++ response).

(** The JSON file of the day is the list [exec_log], kept apart from
    [files]; reading and rewriting it is taken to succeed. *)
Definition log_execution_result (command : string) (intent : Intent)
    (result : Result) : Py unit :=
  modify (fun w =>
    let log_entry :=
      {| entry_timestamp := Some (isoformat_at env (clock_reads w));
         entry_command := Some command;
         entry_intent := Some intent;
         entry_result := Some result;
         entry_execution_time := Some (execution_time result) |} in
    with_exec_log (exec_log w ++ [log_entry]) w).

Definition update_metrics (f : Metrics -> Metrics) : Py unit :=
  modify (fun w => with_metrics (f (metrics w)) w).

Definition get_metrics : Py Metrics := fun w => (Ret (metrics w), w).

(** [process_command] from "Update metrics" to its end: the counters,
    the average, the log entry and the feedback. *)
Definition record_result (command : string) (intent : Intent)
    (result : Result) : Py unit :=
  update_metrics (fun m =>
    mkMetrics (total_commands m + 1) (successful_commands m)
              (failed_commands m) (average_response_time m));;
  (if success result then
     update_metrics (fun m =>
       mkMetrics (total_commands m) (successful_commands m + 1)
                 (failed_commands m) (average_response_time m))
   else
     update_metrics (fun m =>
       mkMetrics (total_commands m) (successful_commands m)
                 (failed_commands m + 1) (average_response_time m)));;
  m ← get_metrics;
  let total_time :=
    (average_response_time m * float_of_int (total_commands m - 1)
     + execution_time result)%float in
  average ← truediv total_time (total_commands m);
  update_metrics (fun m =>
    mkMetrics (total_commands m) (successful_commands m)
              (failed_commands m) average);;
  log_execution_result command intent result;;
  respond (if success result then message result
           else "Failed to execute command: " ++ message result).

Definition process_command (command : string) : Py unit :=
  logger (InfoProcessing command);;
  let intent := NLU.parse_command command in
  logger (InfoParsed intent);;
  conf ← getitem "confidence" (confidence intent);
  if (conf <? 0.5)%float then
    respond ("I'm not sure how to handle: '" ++ command
             ++ "'. Could you rephrase?")
  else
    result ← execute_intent intent;
    record_result command intent result.

(** The commands of one session, in order; a command that raises ends
    the run with its exception. *)
Fixpoint run (commands : list string) : Py unit :=
  match commands with
  | [] => ret tt
  | command :: rest => process_command command;; run rest
  end.

End Pipeline.

(** The state [SmartOSCore.__init__] builds, on a machine without files and
    without a log of the day. *)
Definition initial_metrics : Metrics := mkMetrics 0 0 0 0.

Definition initial_world : World :=
  mkWorld ∅ [] 0 [] [] [] [] initial_metrics.

(** ** MetricsCollector *)

Module Collector.

(** The part of the returned dict read below: the counts and the average
    of [overview], and [response_time_distribution]. *)
Record Snapshot := mkSnapshot {
  ov_total_commands : Z;
  ov_successful_commands : Z;
  ov_failed_commands : Z;
  ov_average_response_time : float;
  under_1s : Z;
  under_3s : Z;
  under_5s : Z;
  over_5s : Z
}.

(** [sum(1 for x in l if p x)] *)
Definition count {A} (p : A -> bool) (l : list A) : Z :=
  Z.of_nat (length (List.filter p l)).

(** [d.get('result', {}).get('success', False)] *)
Definition entry_success (d : LogEntry) : bool :=
  match entry_result d with
  | Some r => success r
  | None => false
  end.

(** [sum(times)] *)
Definition fsum (times : list float) : float :=
  fold_left PrimFloat.add times 0%float.

(** [calculate_performance_metrics]; [None] is the empty dict returned
    for empty data. *)
Definition calculate_performance_metrics (data : list LogEntry)
    : option Snapshot :=
  match data with
  | [] => None
  | _ =>
      let total_commands := Z.of_nat (length data) in
      let successful_commands := count entry_success data in
      let failed_commands := (total_commands - successful_commands)%Z in
      let response_times := omap entry_execution_time data in
      let avg_response_time :=
        match response_times with
        | [] => 0%float
        | _ => (fsum response_times
                / float_of_int (Z.of_nat (length response_times)))%float
        end in
      Some {|
        ov_total_commands := total_commands;
        ov_successful_commands := successful_commands;
        ov_failed_commands := failed_commands;
        ov_average_response_time := avg_response_time;
        under_1s := count (fun t => (t <? 1.0)%float) response_times;
        under_3s := count (fun t => (t <? 3.0)%float) response_times;
        under_5s := count (fun t => (t <? 5.0)%float) response_times;
        over_5s := count (fun t => (5.0 <=? t)%float) response_times
      |}
  end.

(** A key of the snapshot as its consumers read it: [m.get(key, 0)]. *)
Definition get (field : Snapshot -> Z) (m : option Snapshot) : Z :=
  from_option field 0%Z m.

End Collector.

(** ** A sample session *)

(** A macOS machine on which every launch and file operation succeeds, the
    clock reads 0, 2, 2, 6, 6, 12 and a screen capture is available. *)
Definition sample_env : Env := {|
  platform := Darwin;
  clock_at := fun n => nth n [0; 2; 2; 6; 6; 12]%float 0%float;
  isoformat_at := fun _ => "2025-01-01T00:00:00";
  spawn_error := fun _ => None;
  fs_error := fun _ _ => None;
  grab := Some ("screenshots/error_20250101_000000.png", "png")
|}.

Definition sample_config : Config :=
  {| voice_enabled := false; screenshot_on_error := true |}.

(** An intent without target: the launch handler raises [KeyError]. *)
Definition targetless_intent : Intent :=
  {| action := Some "open_application"; target := None;
     parameters := Some ∅; confidence := Some 0.9%float;
     original_command := Some "open" |}.

(** [delete] of a file that is not there. *)
Definition delete_intent : Intent :=
  {| action := Some "file_operation"; target := Some "delete";
     parameters := Some {[ "filename" := "gone.txt" ]};
     confidence := Some 0.8%float;
     original_command := Some "delete file gone.txt" |}.

(** The world of a run: the state after it, whatever its outcome. *)
Definition world_after {A} (m : Py A) (w : World) : World := snd (m w).

(** The counters agree: every counted command succeeded or failed. *)
Definition consistent (m : Metrics) : Prop :=
  total_commands m = (successful_commands m + failed_commands m)%Z.

(** The world in which [process_command] reaches its confidence test: the
    two lines the logger has written are the only difference. *)
Definition after_parse (command : string) (w : World) : World :=
  with_logged ((logged w ++ [InfoProcessing command])
               ++ [InfoParsed (NLU.parse_command command)]) w.

(** The clarification request of [process_command]. *)
Definition clarification (command : string) : string :=
  "I'm not sure how to handle: '" ++ command ++ "'. Could you rephrase?".

(** A computation that leaves one component of the world alone. *)
Definition preserves {X A} (proj : World -> X) (m : Py A) : Prop :=
  forall w, proj (snd (m w)) = proj w.

(** ** Vocabulary of the further properties *)

(** No character of the string is white space. *)
Fixpoint free_of_space (s : string) : bool :=
  match s with
  | EmptyString => true
  | String c s' => negb (PyStr.isspace c) && free_of_space s'
  end.

(** Every word that triggers a rule group: the keywords of the first three
    groups and the words of the keywords of the content group. *)
Definition trigger_words : list string :=
  NLU.open_keywords NLU.intent_patterns
  ++ NLU.file_keywords NLU.intent_patterns
  ++ NLU.system_keywords NLU.intent_patterns
  ++ concat (map PyStr.split (NLU.content_keywords NLU.intent_patterns)).

(** A computation that returns in every world, with a value that has the
    property. *)
Definition returns {A} (P : A -> Prop) (m : Py A) : Prop :=
  forall w, exists a w', m w = (Ret a, w') /\ P a.

(** An intent of the file group, for the samples below. *)
Definition file_intent (operation : string)
    (params : gmap string string) : Intent :=
  {| action := Some "file_operation"; target := Some operation;
     parameters := Some params; confidence := Some 0.8%float;
     original_command := Some (operation ++ " file") |}.

(** The sample machine when the operating system refuses every file
    operation and every launch. *)
Definition locked_env : Env := {|
  platform := Darwin;
  clock_at := clock_at sample_env;
  isoformat_at := isoformat_at sample_env;
  spawn_error := fun _ => Some "[Errno 2] No such file or directory";
  fs_error := fun _ _ => Some "[Errno 13] Permission denied";
  grab := None
|}.

(** The sample machine without its editor: files can be written, nothing
    can be launched. *)
Definition editorless_env : Env := {|
  platform := Darwin;
  clock_at := clock_at sample_env;
  isoformat_at := isoformat_at sample_env;
  spawn_error := fun _ => Some "[Errno 2] No such file or directory";
  fs_error := fun _ _ => None;
  grab := None
|}.

(** ** MetricsCollector, further parts *)

Module Dashboard.
Import Collector.

(** [d.get('intent', {}).get('action', 'unknown')] *)
Definition entry_label (d : LogEntry) : string :=
  default "unknown" (entry_intent d ≫= action).

(** [d.get('intent', {}).get('action')] *)
Definition entry_action (d : LogEntry) : option string :=
  entry_intent d ≫= action.

(** [cats[key] = cats.get(key, 0) + 1] on a dict kept as the list of its
    items in insertion order. *)
Fixpoint bump (key : string) (cats : list (string * Z))
    : list (string * Z) :=
  match cats with
  | [] => [(key, 1%Z)]
  | (k, n) :: rest =>
      if String.eqb k key then (k, (n + 1)%Z) :: rest
      else (k, n) :: bump key rest
  end.

(** [cats.get(key)] *)
Definition dict_get {V} (key : string) (cats : list (string * V))
    : option V :=
  snd <$> List.find (fun e => String.eqb (fst e) key) cats.

(** The dict [command_categories] of [calculate_performance_metrics]. *)
Definition command_categories (data : list LogEntry) : list (string * Z) :=
  fold_left (fun cats d => bump (entry_label d) cats) data [].

(** The counts of an entry of [category_performance]. *)
Record CategoryPerformance := mkCategoryPerformance {
  cat_total : Z;
  cat_success : Z
}.

Definition action_is (category : string) (d : LogEntry) : bool :=
  match entry_action d with
  | Some a => String.eqb a category
  | None => false
  end.

(** The record has no action: no intent, or an intent without one. *)
Definition without_action (d : LogEntry) : bool :=
  match entry_action d with
  | Some _ => false
  | None => true
  end.

(** The dict [category_performance] of [calculate_performance_metrics],
    its counts. *)
Definition category_performance (data : list LogEntry)
    : list (string * CategoryPerformance) :=
  map (fun e =>
         let category := fst e in
         let category_data := List.filter (action_is category) data in
         (category,
          {| cat_total := Z.of_nat (length category_data);
             cat_success := count entry_success category_data |}))
      (command_categories data).

(** [sum(values)] *)
Definition zsum (l : list Z) : Z := fold_right Z.add 0%Z l.

End Dashboard.

(** ** SmartOSInterface.start_text_loop *)

(** What [input] gives the loop: a line, a [KeyboardInterrupt], or another
    exception, of which the loop reads the text ([EOFError]: "EOF when
    reading a line"). *)
Inductive Input :=
| Typed (line : string)
| KeyboardInterrupt
| InputFault (text : string).

(** The input ends the loop: an interrupt, or one of the exit words in any
    letter case, white space around it aside. *)
Definition ends_session (event : Input) : bool :=
  match event with
  | Typed line =>
      PyStr.mem (PyStr.lower (PyStr.strip line)) ["exit"; "quit"; "stop"]
  | KeyboardInterrupt => true
  | InputFault _ => false
  end.

Section TextLoop.
Import PyStr.

Variable env : Env.
Variable config : Config.

(** The [except Exception] branch of the loop; the line of the logger is an
    error line with its text. *)
Definition text_loop_error (text : string) : Py unit :=
  logger (ErrorExecution ("Text loop error: " ++ text));;
  print "Sorry, I encountered an error. Please try again.".

(** The [while] loop of [start_text_loop] on the inputs it is given, one per
    prompt; when they are used up the loop is left waiting at its prompt. *)
Fixpoint text_loop (inputs : list Input) : Py unit :=
  match inputs with
  | [] => ret tt
  | event :: rest =>
      print (nl ++ "SmartOS> ");;
      match event with
      | KeyboardInterrupt => print (nl ++ "Goodbye!")
      | InputFault text => text_loop_error text;; text_loop rest
      | Typed line =>
          let command := strip line in
          match command with
          | EmptyString => text_loop rest
          | _ =>
              if mem (lower command) ["exit"; "quit"; "stop"]
              then print "Goodbye!"
              else
                try_except (process_command env config command)
                  (fun e => text_loop_error (exn_str e));;
                text_loop rest
          end
      end
  end.

End TextLoop.

(** What the user is told: [respond] prints one line and, with the voice
    on, says it. *)
Definition told (config : Config) (response : string) (w w' : World)
    : Prop :=
  console w' = (console w ++ [("SmartOS: " ++ response)%string])%list /\
  spoken w'
  = (if voice_enabled config then spoken w ++ [response] else spoken w)%list.

(** * Properties *)

(** ** Facts about the string operations *)

Module PyStrFacts.
Import PyStr.

Lemma lower_char_space c : isspace (lower_char c) = isspace c.
Proof. destruct c as [[] [] [] [] [] [] [] []]; reflexivity. Qed.

Lemma app_nil (b : string) : "" ++ b = b.
Proof. reflexivity. Qed.

Lemma app_cons x (a b : string) : String x a ++ b = String x (a ++ b).
Proof. reflexivity. Qed.

Ltac str_simpl := repeat (rewrite ?app_nil, ?app_cons in *; simpl in *).

Lemma lower_app a b : lower (a ++ b) = lower a ++ lower b.
Proof. induction a as [|c a IH]; str_simpl; [reflexivity | now rewrite IH]. Qed.

Lemma lower_length s : String.length (lower s) = String.length s.
Proof. induction s as [|c s IH]; simpl; [reflexivity | now rewrite IH]. Qed.

Lemma app_length a b :
  String.length (a ++ b) = (String.length a + String.length b)%nat.
Proof. induction a as [|c a IH]; str_simpl; [reflexivity | now rewrite IH]. Qed.

Lemma app_assoc (a b c : string) : (a ++ b) ++ c = a ++ b ++ c.
Proof. induction a as [|x a' IH]; str_simpl; [reflexivity | now f_equal]. Qed.

Lemma app_empty_r (a : string) : a ++ "" = a.
Proof. induction a as [|x a' IH]; str_simpl; [reflexivity | now f_equal]. Qed.

Lemma startswith_spec p s :
  startswith p s = true <-> exists r, s = p ++ r.
Proof.
  revert s; induction p as [|a p IH]; intros s; simpl.
  - split; [intros _; now exists s | reflexivity].
  - destruct s as [|b s].
    + split; [discriminate | intros [r Hr]; discriminate].
    + rewrite andb_true_iff, Ascii.eqb_eq, IH. split.
      * intros [-> [r ->]]. now exists r.
      * intros [r Hr]. injection Hr as -> ->. split; [reflexivity|now exists r].
Qed.

Lemma contains_spec p s :
  contains p s = true <-> exists l r, s = l ++ p ++ r.
Proof.
  induction s as [|c s IH]; simpl.
  - rewrite orb_false_r, startswith_spec. split.
    + intros [r Hr]. now exists "", r.
    + intros [l [r Hr]]. destruct l; [now exists r | discriminate].
  - rewrite orb_true_iff, IH, startswith_spec. split.
    + intros [[r Hr] | [l [r Hr]]].
      * now exists "", r.
      * exists (String c l), r. simpl. now rewrite Hr.
    + intros [[|a l] [r Hr]].
      * left. now exists r.
      * right. injection Hr as -> ->. now exists l, r.
Qed.

Lemma contains_lower p s :
  lower p = p -> contains p s = true -> contains p (lower s) = true.
Proof.
  intros Hp. rewrite !contains_spec. intros [l [r ->]].
  exists (lower l), (lower r). now rewrite !lower_app, Hp.
Qed.

Lemma lstrip_length s : (String.length (lstrip s) <= String.length s)%nat.
Proof.
  induction s as [|c s IH]; simpl; [lia|].
  destruct (isspace c); simpl; lia.
Qed.

Lemma lstrip_fixed_head c p :
  lstrip (String c p) = String c p -> isspace c = false.
Proof.
  simpl. destruct (isspace c); [|reflexivity].
  intros H. pose proof (lstrip_length p) as L. rewrite H in L. simpl in L. lia.
Qed.

Lemma lstrip_keeps l p r :
  lstrip p = p -> p <> "" ->
  exists l', lstrip (l ++ p ++ r) = l' ++ p ++ r.
Proof.
  intros Hp Hne. destruct p as [|c p]; [congruence|].
  apply lstrip_fixed_head in Hp.
  induction l as [|a l IH]; simpl.
  - rewrite Hp. now exists "".
  - destruct (isspace a); [exact IH | now exists (String a l)].
Qed.

Lemma rstrip_cons_nonspace c s :
  isspace c = false -> rstrip (String c s) = String c (rstrip s).
Proof. intros H. simpl. rewrite H. now destruct (rstrip s). Qed.

Lemma rstrip_cons_keep c s :
  rstrip s <> "" -> rstrip (String c s) = String c (rstrip s).
Proof. intros H. simpl. destruct (rstrip s); [congruence | reflexivity]. Qed.

Lemma rstrip_app_keep l x :
  rstrip x <> "" -> rstrip (l ++ x) = l ++ rstrip x.
Proof.
  intros H. induction l as [|a l IH]; simpl; [reflexivity|].
  rewrite IH. destruct l; simpl; [|reflexivity].
  destruct (rstrip x); [congruence | reflexivity].
Qed.

Lemma rstrip_solid_app p r :
  rstrip p = p -> p <> "" -> rstrip (p ++ r) = p ++ rstrip r.
Proof.
  induction p as [|c p IH]; [congruence|]. intros Hp _.
  simpl in Hp. rewrite app_cons.
  destruct (string_dec (rstrip p) "") as [E|E].
  - rewrite E in Hp. destruct (isspace c) eqn:Hc; [discriminate|].
    injection Hp as <-. rewrite app_nil.
    now apply rstrip_cons_nonspace.
  - assert (Hq : rstrip p = p).
    { destruct (rstrip p); [congruence | now injection Hp]. }
    assert (Hn : p <> "") by congruence.
    rewrite rstrip_cons_keep; rewrite (IH Hq Hn); [reflexivity|].
    destruct p; [congruence | rewrite app_cons; discriminate].
Qed.

Lemma rstrip_keeps l p r :
  rstrip p = p -> p <> "" -> rstrip (l ++ p ++ r) = l ++ p ++ rstrip r.
Proof.
  intros Hp Hne.
  assert (H : rstrip (p ++ r) = p ++ rstrip r) by now apply rstrip_solid_app.
  rewrite rstrip_app_keep; rewrite H; [reflexivity|].
  destruct p; [congruence | discriminate].
Qed.

(** A pattern without white space at either end survives trimming. *)
Lemma contains_strip p s :
  lstrip p = p -> rstrip p = p -> p <> "" ->
  contains p s = true -> contains p (strip s) = true.
Proof.
  intros Hl Hr Hne. rewrite !contains_spec. intros [l [r ->]].
  unfold strip. destruct (lstrip_keeps l p r Hl Hne) as [l' ->].
  rewrite (rstrip_keeps l' p r Hr Hne). now exists l', (rstrip r).
Qed.

Lemma rstrip_prefix s : exists w, s = rstrip s ++ w.
Proof.
  induction s as [|c s [w IH]]; simpl; [now exists ""|].
  destruct (rstrip s) as [|d q] eqn:E.
  - rewrite app_nil in IH. destruct (isspace c).
    + now exists (String c s).
    + exists w. rewrite app_cons, app_nil. now f_equal.
  - exists w. rewrite app_cons. now f_equal.
Qed.

Lemma startswith_rstrip p s :
  rstrip p = p -> p <> "" -> startswith p (rstrip s) = startswith p s.
Proof.
  intros Hp Hne. apply eq_true_iff_eq. rewrite !startswith_spec. split.
  - intros [r Hr]. destruct (rstrip_prefix s) as [w Hw].
    exists (r ++ w). rewrite Hw at 1. rewrite Hr. apply app_assoc.
  - intros [r ->]. exists (rstrip r). now apply rstrip_solid_app.
Qed.

Lemma find_empty p : p <> "" -> find p "" = (-1)%Z.
Proof. destruct p; [congruence | reflexivity]. Qed.

Lemma find_cons p c s :
  find p (String c s) =
  if startswith p (String c s) then 0%Z
  else let r := find p s in if (r <? 0)%Z then (-1)%Z else (1 + r)%Z.
Proof. reflexivity. Qed.

Lemma find_rstrip p s :
  rstrip p = p -> p <> "" -> find p (rstrip s) = find p s.
Proof.
  intros Hp Hne. induction s as [|c s IH]; [reflexivity|].
  pose proof (startswith_rstrip p (String c s) Hp Hne) as Hs.
  rewrite (find_cons p c s), <- Hs, <- IH. clear Hs IH. simpl rstrip.
  destruct (rstrip s) as [|d q] eqn:E.
  - rewrite (find_empty p Hne). destruct (isspace c).
    + rewrite (find_empty p Hne).
      destruct p; [congruence | reflexivity].
    + now rewrite find_cons, (find_empty p Hne).
  - now rewrite find_cons.
Qed.

Lemma lstrip_lower s : lstrip (lower s) = lower (lstrip s).
Proof.
  induction s as [|c s IH]; [reflexivity|]. simpl.
  rewrite lower_char_space. now destruct (isspace c).
Qed.

Lemma startswith_lower_split p s :
  startswith p (lower s) = true ->
  exists w post, s = w ++ post /\ lower w = p.
Proof.
  revert s; induction p as [|a p IH]; intros s H.
  - now exists "", s.
  - destruct s as [|c s]; [discriminate|]. simpl in H.
    apply andb_true_iff in H as [Ha Hp]. apply Ascii.eqb_eq in Ha.
    destruct (IH s Hp) as [w [post [-> Hw]]].
    exists (String c w), post. rewrite app_cons. simpl. now rewrite Hw, Ha.
Qed.

Lemma startswith_lower_intro w post :
  startswith (lower w) (lower (w ++ post)) = true.
Proof. apply startswith_spec. exists (lower post). apply lower_app. Qed.

Lemma drop_app w post : drop (String.length w) (w ++ post) = post.
Proof. induction w as [|c w IH]; [reflexivity | now rewrite app_cons]. Qed.

Lemma slice_from_app w post :
  slice_from (Z.of_nat (String.length w)) (w ++ post) = post.
Proof.
  unfold slice_from.
  destruct (Z.ltb_spec (Z.of_nat (String.length w)) 0); [lia|].
  rewrite Nat2Z.id. apply drop_app.
Qed.

Lemma find_lower_first p s :
  contains p (lower s) = true ->
  exists pre w post,
    first_occurrence p s pre w post /\
    find p (lower s) = Z.of_nat (String.length pre).
Proof.
  induction s as [|c s IH]; intros H.
  - simpl in H. rewrite orb_false_r in H.
    destruct (startswith_lower_split p "" H) as [w [post [E Hw]]].
    exists "", w, post. repeat split; auto.
    + intros; simpl; lia.
    + simpl lower. destruct p; [reflexivity | discriminate].
  - simpl lower in *. rewrite find_cons.
    destruct (startswith p (String (lower_char c) (lower s))) eqn:Hs.
    + destruct (startswith_lower_split p (String c s) Hs)
        as [w [post [E Hw]]].
      exists "", w, post. repeat split; auto. intros; simpl; lia.
    + simpl in H. rewrite Hs in H. simpl in H.
      destruct (IH H) as [pre [w [post [[E [Hw Hmin]] Hf]]]].
      exists (String c pre), w, post. repeat split.
      * rewrite app_cons. now f_equal.
      * exact Hw.
      * intros pre' w' post' E' Hw'. destruct pre' as [|c' pre'].
        -- rewrite app_nil in E'. exfalso.
           pose proof (startswith_lower_intro w' post') as Hc.
           rewrite <- E', Hw' in Hc. simpl lower in Hc. congruence.
        -- rewrite app_cons in E'. injection E' as _ E'.
           specialize (Hmin pre' w' post' E' Hw'). simpl. lia.
      * rewrite Hf. cbv zeta.
        destruct (Z.ltb_spec (Z.of_nat (String.length pre)) 0); [lia|].
        simpl String.length. lia.
Qed.

End PyStrFacts.

(** ** The classifier *)

Module NLUFacts.
Import PyStr PyStrFacts NLU.

Lemma any_in_intro kws kw cl :
  In kw kws -> contains kw cl = true -> any_in kws cl = true.
Proof. intros Hin Hc. apply existsb_exists. now exists kw. Qed.

Lemma find_all_false {A} (f : A -> bool) l :
  (forall x, In x l -> f x = false) -> List.find f l = None.
Proof.
  induction l as [|a l IH]; intros H; [reflexivity|]. simpl.
  rewrite (H a (or_introl eq_refl)). apply IH. intros x Hx. apply H. now right.
Qed.

Lemma first_target_none table cl :
  (forall tgt aliases alias,
      In (tgt, aliases) table -> In alias aliases ->
      contains alias cl = false) ->
  first_target table cl = None.
Proof.
  intros H. unfold first_target. rewrite find_all_false; [reflexivity|].
  intros [tgt aliases] Hin. simpl. unfold any_in.
  destruct (existsb _ aliases) eqn:E; [|reflexivity].
  apply existsb_exists in E as [alias [Ha Hc]].
  now rewrite (H tgt aliases alias Hin Ha) in Hc.
Qed.

Lemma detect_open_action P cl i :
  any_in (open_keywords P) cl = true ->
  action (detect_open P cl i) = Some "open_application".
Proof.
  intros H. unfold detect_open. rewrite H.
  now destruct (first_target (open_apps P) cl).
Qed.

(** Once a trigger of the first group occurs, the answer is that of the
    first group alone. *)
Lemma parse_open_only P command :
  any_in (open_keywords P) (strip (lower command)) = true ->
  parse_command_with P command =
  detect_open P (strip (lower command)) (unknown_intent command).
Proof.
  intros H. unfold parse_command_with. cbv zeta.
  assert (U : action_is_unknown
                (detect_open P (strip (lower command))
                   (unknown_intent command)) = false).
  { unfold action_is_unknown. now rewrite detect_open_action. }
  now rewrite !U.
Qed.

(** A trigger of the first group found in the raw text is found in the
    normalised text. *)
Lemma open_keyword_normalised kw text :
  In kw ["open"; "launch"; "start"; "run"] ->
  contains kw text = true ->
  any_in (open_keywords intent_patterns) (strip (lower text)) = true.
Proof.
  intros Hin Hc. apply (any_in_intro _ kw); [exact Hin|].
  simpl in Hin.
  destruct Hin as [<-|[<-|[<-|[<-|[]]]]];
    (apply contains_strip; [reflexivity | reflexivity | discriminate |]);
    (apply contains_lower; [reflexivity | exact Hc]).
Qed.

Lemma detect_open_cases P cl i :
  detect_open P cl i = i \/
  action (detect_open P cl i) = Some "open_application".
Proof.
  unfold detect_open. destruct (any_in _ cl); [right | now left].
  now destruct (first_target _ cl).
Qed.

Lemma detect_file_cases P command cl i :
  detect_file P command cl i = i \/
  action (detect_file P command cl i) = Some "file_operation".
Proof.
  unfold detect_file. destruct (any_in _ cl); [right | now left].
  destruct (first_target _ cl); [|reflexivity].
  destruct (_ || _); [|reflexivity].
  now destruct (filename_after _).
Qed.

Lemma detect_system_cases P cl i :
  detect_system P cl i = i \/
  action (detect_system P cl i) = Some "system_control".
Proof.
  unfold detect_system. destruct (List.find _ _); [now right | now left].
Qed.

Lemma known_action i a :
  action i = Some a -> a <> "unknown" -> action_is_unknown i = false.
Proof.
  intros E Ha. unfold action_is_unknown. rewrite E.
  now apply String.eqb_neq.
Qed.

(** When the answer is [content_creation], no rule of the first three
    groups fired and the answer is that of the content group. *)
Lemma parse_content_inv command :
  action (parse_command command) = Some "content_creation" ->
  parse_command command =
  detect_content intent_patterns command (strip (lower command))
    (unknown_intent command).
Proof.
  unfold parse_command, parse_command_with. cbv zeta.
  set (cl := strip (lower command)). set (i0 := unknown_intent command).
  destruct (detect_open_cases intent_patterns cl i0) as [-> | A].
  2: { rewrite !(known_action _ _ A) by discriminate. congruence. }
  change (action_is_unknown i0) with true. cbv iota.
  destruct (detect_file_cases intent_patterns command cl i0) as [-> | A].
  2: { rewrite !(known_action _ _ A) by discriminate. congruence. }
  change (action_is_unknown i0) with true. cbv iota.
  destruct (detect_system_cases intent_patterns cl i0) as [-> | A].
  2: { rewrite !(known_action _ _ A) by discriminate. congruence. }
  change (action_is_unknown i0) with true. cbv iota. reflexivity.
Qed.

Lemma no_alias_check (table : list (string * list string)) cl :
  forallb (fun e => negb (any_in (snd e) cl)) table = true ->
  forall tgt aliases alias,
    In (tgt, aliases) table -> In alias aliases ->
    contains alias cl = false.
Proof.
  intros H tgt aliases alias Hin Ha.
  rewrite forallb_forall in H. specialize (H _ Hin). simpl in H.
  apply negb_true_iff in H. unfold any_in in H.
  destruct (contains alias cl) eqn:E; [|reflexivity].
  assert (existsb (fun a => contains a cl) aliases = true)
    by (apply existsb_exists; now exists alias).
  congruence.
Qed.

End NLUFacts.

Import PyStr NLU.

(** The classifier on the sample utterances of the specification. *)
Example classify_open_notepad :
  let i := parse_command "open notepad" in
  action i = Some "open_application" /\ target i = Some "notepad" /\
  confidence i = Some 0.9%float.
Proof. now repeat split. Qed.

Example classify_gibberish :
  parse_command "asdkj qwoei" = unknown_intent "asdkj qwoei".
Proof. reflexivity. Qed.

Example classify_delete_file :
  let i := parse_command "Delete file  notes.txt now" in
  action i = Some "file_operation" /\ target i = Some "delete" /\
  (parameters i ≫= lookup "filename") = Some "notes.txt".
Proof. now repeat split. Qed.

(** The index of "about" is taken in the trimmed text and applied to the
    untrimmed one: leading white space shifts the topic. *)
Example topic_shifted_by_leading_space :
  (parameters (parse_command "  draft essay about cats") ≫= lookup "topic")
  = Some "ut cats".
Proof. reflexivity. Qed.

(** C2.  Priority order: a text containing a trigger keyword of the
    application group ("open", "launch", "start", "run") and also one of the
    file group is classified [open_application]; the later groups are not
    consulted, that is, the intent is the same for every pattern table with
    the same application group, whatever its other groups hold. *)
Theorem priority_open_application (text kw_app kw_file : string) :
  In kw_app ["open"; "launch"; "start"; "run"] ->
  contains kw_app text = true ->
  In kw_file ["create"; "write"; "save"; "delete"; "copy"; "move"] ->
  contains kw_file text = true ->
  action (parse_command text) = Some "open_application" /\
  forall P : Patterns,
    open_keywords P = open_keywords intent_patterns ->
    open_apps P = open_apps intent_patterns ->
    parse_command_with P text = parse_command text.
Proof.
  intros Happ Hc _ _.
  pose proof (NLUFacts.open_keyword_normalised kw_app text Happ Hc) as Hk.
  split.
  - unfold parse_command. rewrite NLUFacts.parse_open_only by exact Hk.
    now apply NLUFacts.detect_open_action.
  - intros P Hkw Happs. unfold parse_command.
    rewrite !NLUFacts.parse_open_only by (rewrite ?Hkw; exact Hk).
    unfold detect_open. now rewrite Hkw, Happs.
Qed.

Lemma priority_open_application_witness :
  action (parse_command "open notepad and create new document")
  = Some "open_application" /\
  forall P : Patterns,
    open_keywords P = open_keywords intent_patterns ->
    open_apps P = open_apps intent_patterns ->
    parse_command_with P "open notepad and create new document"
    = parse_command "open notepad and create new document".
Proof.
  apply (priority_open_application
           "open notepad and create new document" "open" "create").
  - simpl; tauto.
  - reflexivity.
  - simpl; tauto.
  - reflexivity.
Defined.

(** C4, as the code has it.  When a trigger keyword of the application
    group occurs in the normalised text and no alias of any application
    does, the intent is [open_application] with an empty target, and its
    confidence is the initial 0.0: the 0.90 of the group is assigned only
    together with a target. *)
Theorem unmatched_target_confidence (text kw : string) :
  In kw ["open"; "launch"; "start"; "run"] ->
  contains kw (strip (lower text)) = true ->
  (forall app aliases alias,
      In (app, aliases) (open_apps intent_patterns) -> In alias aliases ->
      contains alias (strip (lower text)) = false) ->
  action (parse_command text) = Some "open_application" /\
  target (parse_command text) = Some "" /\
  confidence (parse_command text) = Some 0%float.
Proof.
  intros Hin Hc Hno.
  assert (Hk : any_in (open_keywords intent_patterns) (strip (lower text))
               = true) by now apply (NLUFacts.any_in_intro _ kw).
  unfold parse_command. rewrite NLUFacts.parse_open_only by exact Hk.
  unfold detect_open. rewrite Hk.
  now rewrite (NLUFacts.first_target_none _ _ Hno).
Qed.

Lemma unmatched_target_confidence_witness :
  action (parse_command "open foo") = Some "open_application" /\
  target (parse_command "open foo") = Some "" /\
  confidence (parse_command "open foo") = Some 0%float.
Proof.
  apply (unmatched_target_confidence "open foo" "open").
  - simpl; tauto.
  - reflexivity.
  - apply NLUFacts.no_alias_check. reflexivity.
Defined.

(** C4 as stated fails at "open foo": a trigger keyword occurs, no alias
    does, and the confidence is not 0.90. *)
Lemma unmatched_target_confidence_counterexample :
  In "open" ["open"; "launch"; "start"; "run"] /\
  contains "open" (strip (lower "open foo")) = true /\
  (forall app aliases alias,
      In (app, aliases) (open_apps intent_patterns) -> In alias aliases ->
      contains alias (strip (lower "open foo")) = false) /\
  confidence (parse_command "open foo") <> Some 0.9%float.
Proof.
  split; [simpl; tauto|]. split; [reflexivity|]. split.
  - apply NLUFacts.no_alias_check. reflexivity.
  - intros E.
    apply (f_equal (from_option (fun c => (c <? 0.5)%float) false)) in E.
    vm_compute in E. discriminate.
Qed.

(** C9, as the code has it.  The texts are those of this embedding, of code
    points below 256, where lower-casing keeps every character at its index.
    For such a text classified [content_creation]: when it has no leading
    white space, a content type was resolved and it contains "about" in any
    letter case, the parameters hold under [topic] the part of the original
    text after the first such occurrence, trimmed; and when no content type
    was resolved, the parameters are empty, so they hold no topic. *)
Theorem topic_after_about (text : string) :
  action (parse_command text) = Some "content_creation" ->
  (lstrip text = text ->
   target (parse_command text) <> Some "" ->
   contains "about" (lower text) = true ->
   exists pre w post params,
     first_occurrence "about" text pre w post /\
     parameters (parse_command text) = Some params /\
     params !! "topic" = Some (strip post)) /\
  (target (parse_command text) = Some "" ->
   parameters (parse_command text) = Some ∅ /\
   forall params,
     parameters (parse_command text) = Some params ->
     params !! "topic" = None).
Proof.
  intros Ha.
  pose proof (NLUFacts.parse_content_inv text Ha) as E.
  rewrite E in Ha |- *. clear E. split.
  - intros Hl Ht Hc.
    assert (Hcl : strip (lower text) = rstrip (lower text)).
    { unfold strip. now rewrite PyStrFacts.lstrip_lower, Hl. }
    rewrite Hcl in *.
    destruct (PyStrFacts.find_lower_first "about" text Hc)
      as [pre [w [post [Hfirst Hfind]]]].
    unfold detect_content in *.
    destruct (existsb _ (content_keywords intent_patterns));
      [|discriminate].
    destruct (List.find _ (content_types intent_patterns)) as [ct|];
      [|now elim Ht].
    assert (Hc' : contains "about" (rstrip (lower text)) = true).
    { rewrite <- Hcl. apply PyStrFacts.contains_strip;
        [reflexivity | reflexivity | discriminate | exact Hc]. }
    rewrite Hc'.
    rewrite PyStrFacts.find_rstrip, Hfind by (reflexivity || discriminate).
    exists pre, w, post. eexists. split; [exact Hfirst|]. split.
    + reflexivity.
    + rewrite lookup_insert_eq. do 2 f_equal.
      destruct Hfirst as [E [Hw _]].
      assert (Hlen : String.length w = 5%nat)
        by (rewrite <- (PyStrFacts.lower_length w), Hw; reflexivity).
      rewrite E, <- PyStrFacts.app_assoc.
      replace (Z.of_nat (String.length pre) + 5)%Z
        with (Z.of_nat (String.length (pre ++ w)))
        by (rewrite PyStrFacts.app_length; lia).
      apply PyStrFacts.slice_from_app.
  - intros Ht.
    assert (Hp : parameters
                   (detect_content intent_patterns text (strip (lower text))
                      (unknown_intent text)) = Some ∅).
    { unfold detect_content in *.
      destruct (existsb _ (content_keywords intent_patterns));
        [|reflexivity].
      destruct (List.find _ (content_types intent_patterns)) as [ct|] eqn:F;
        [|reflexivity].
      apply find_some in F as [Hin _].
      assert (Hct : ct = "").
      { destruct (contains "about" (strip (lower text)));
          simpl in Ht; congruence. }
      subst ct. simpl in Hin.
      destruct Hin as [H|[H|[H|[H|[H|[]]]]]]; discriminate H. }
    split; [exact Hp|].
    intros params Hq. rewrite Hp in Hq. injection Hq as <-.
    apply lookup_empty.
Qed.

Lemma topic_after_about_witness :
  (exists pre w post params,
     first_occurrence "about" "draft essay About cats " pre w post /\
     parameters (parse_command "draft essay About cats ") = Some params /\
     params !! "topic" = Some (strip post)) /\
  parameters (parse_command "Compose About cats") = Some ∅.
Proof.
  split.
  - apply (topic_after_about "draft essay About cats ").
    + reflexivity.
    + reflexivity.
    + vm_compute. discriminate.
    + reflexivity.
  - apply (topic_after_about "Compose About cats");
      vm_compute; reflexivity.
Defined.

(** C9 as stated fails at "compose about cats": the text is classified
    [content_creation] and contains "about", no content type is resolved,
    and the parameters hold no topic. *)
Lemma topic_after_about_counterexample :
  action (parse_command "compose about cats") = Some "content_creation" /\
  contains "about" "compose about cats" = true /\
  target (parse_command "compose about cats") = Some "" /\
  forall params,
    parameters (parse_command "compose about cats") = Some params ->
    params !! "topic" = None.
Proof.
  repeat split.
  intros params E.
  change (parameters (parse_command "compose about cats"))
    with (Some (∅ : gmap string string)) in E.
  injection E as <-. apply lookup_empty.
Qed.

(** ** The dispatcher and the pipeline *)

Section PipelineFacts.
Variable env : Env.
Variable config : Config.

(** A component of the world that file operations and launches do not
    touch: the clock, the metrics, the execution log. *)
Context {X : Type} (proj : World -> X).
Hypothesis proj_files : forall f w, proj (with_files f w) = proj w.
Hypothesis proj_spawned : forall l w, proj (with_spawned l w) = proj w.

Lemma frame_ret {A} (a : A) : preserves proj (mret a : Py A).
Proof. intros w. reflexivity. Qed.

Lemma frame_raise {A} e : preserves proj (raise e : Py A).
Proof. intros w. reflexivity. Qed.

Lemma frame_bind {A B} (m : Py A) (k : A -> Py B) :
  preserves proj m -> (forall a, preserves proj (k a)) ->
  preserves proj (m ≫= k).
Proof.
  intros Hm Hk w. unfold mbind, py_bind, bind.
  specialize (Hm w). destruct (m w) as [[a|e] w1]; simpl in *.
  - now rewrite Hk.
  - exact Hm.
Qed.

Lemma frame_fmap {A B} (f : A -> B) (m : Py A) :
  preserves proj m -> preserves proj (f <$> m).
Proof.
  intros Hm w. unfold fmap, py_fmap, bind.
  specialize (Hm w). now destruct (m w) as [[a|e] w1].
Qed.

Lemma frame_try {A} (m : Py A) (h : PyExn -> Py A) :
  preserves proj m -> (forall e, preserves proj (h e)) ->
  preserves proj (try_except m h).
Proof.
  intros Hm Hh w. unfold try_except.
  specialize (Hm w). destruct (m w) as [[a|e] w1]; simpl in *.
  - exact Hm.
  - now rewrite Hh.
Qed.

Lemma frame_getitem {A} key (field : option A) :
  preserves proj (getitem key field).
Proof. intros w. now destruct field. Qed.

Lemma frame_spawn l : preserves proj (spawn env l).
Proof.
  intros w. unfold spawn. destruct (spawn_error env l); [reflexivity|].
  apply proj_spawned.
Qed.

Lemma frame_path_exists path : preserves proj (path_exists path).
Proof. intros w. reflexivity. Qed.

Lemma frame_path_touch path : preserves proj (path_touch env path).
Proof.
  intros w. unfold path_touch.
  destruct (fs_error env Touch path); [reflexivity|].
  destruct (files w !! path); [reflexivity | apply proj_files].
Qed.

Lemma frame_write_file path content :
  preserves proj (write_file env path content).
Proof.
  intros w. unfold write_file.
  destruct (fs_error env _ path); [reflexivity | apply proj_files].
Qed.

Lemma frame_os_remove path : preserves proj (os_remove env path).
Proof.
  intros w. unfold os_remove.
  destruct (fs_error env _ path); [reflexivity | apply proj_files].
Qed.

Ltac frame :=
  repeat first
    [ apply frame_ret | apply frame_raise | apply frame_getitem
    | apply frame_spawn | apply frame_path_exists | apply frame_path_touch
    | apply frame_write_file | apply frame_os_remove
    | apply frame_fmap | apply frame_try | apply frame_bind
    | match goal with
      | |- forall _, _ => intro
      | |- preserves _ (if ?b then _ else _) => destruct b
      | |- preserves _ (match ?x with _ => _ end) => destruct x
      end ].

Lemma frame_app_launch intent :
  preserves proj (_execute_app_launch env intent).
Proof. unfold _execute_app_launch. frame. Qed.

Lemma frame_file_operation intent :
  preserves proj (_execute_file_operation env intent).
Proof. unfold _execute_file_operation. frame. Qed.

Lemma frame_system_control intent :
  preserves proj (_execute_system_control env intent).
Proof. unfold _execute_system_control. frame. Qed.

Lemma frame_content_creation intent :
  preserves proj (_execute_content_creation env intent).
Proof. unfold _execute_content_creation. frame. Qed.

(** No handler touches the component. *)
Lemma frame_dispatch intent : preserves proj (dispatch env intent).
Proof.
  unfold dispatch.
  pose proof (frame_app_launch intent).
  pose proof (frame_file_operation intent).
  pose proof (frame_system_control intent).
  pose proof (frame_content_creation intent).
  frame; assumption.
Qed.

Hypothesis proj_clock : forall n w, proj (with_clock_reads n w) = proj w.
Hypothesis proj_logged : forall l w, proj (with_logged l w) = proj w.

(** The dispatcher returns, and leaves alone every component that the
    clock and the logger do not touch either. *)
Lemma execute_intent_returns intent w :
  exists r w',
    execute_intent env config intent w = (Ret r, w') /\ proj w' = proj w.
Proof.
  unfold execute_intent, mbind, py_bind, bind, try_except, time_time.
  pose proof (frame_dispatch intent
                (with_clock_reads (S (clock_reads w)) w)) as F.
  rewrite proj_clock in F.
  destruct (dispatch env intent (with_clock_reads (S (clock_reads w)) w))
    as [[r0|e] w1]; simpl in F.
  - eexists _, _. split; [reflexivity|]. now rewrite proj_clock.
  - unfold logger, modify, _capture_screenshot.
    destruct (screenshot_on_error config);
      [destruct (grab env) as [[path image]|]|];
      (eexists _, _; split; [reflexivity|]);
      now rewrite ?proj_files, ?proj_logged, ?proj_clock.
Qed.

End PipelineFacts.

Section ProcessFacts.
Variable env : Env.
Variable config : Config.

Lemma confidence_some command :
  exists conf, confidence (parse_command command) = Some conf.
Proof.
  unfold parse_command, parse_command_with, detect_open, detect_file,
    detect_system, detect_content. cbv zeta.
  repeat match goal with
         | |- context [if ?b then _ else _] => destruct b
         | |- context [match ?x with _ => _ end] => destruct x
         end; simpl; eauto.
Qed.

Lemma process_command_unfold command w conf :
  confidence (parse_command command) = Some conf ->
  process_command env config command w
  = (if (conf <? 0.5)%float
     then respond config (clarification command)
     else execute_intent env config (parse_command command)
          ≫= record_result env config command (parse_command command))
      (after_parse command w).
Proof.
  intros H. unfold process_command, mbind, py_bind, bind, logger, modify.
  cbv zeta. simpl. rewrite H. reflexivity.
Qed.

Lemma respond_run response w :
  exists w',
    respond config response w = (Ret tt, w') /\
    files w' = files w /\ spawned w' = spawned w /\
    clock_reads w' = clock_reads w /\ logged w' = logged w /\
    exec_log w' = exec_log w /\ metrics w' = metrics w /\
    console w' = (console w ++ [("SmartOS: " ++ response)%string])%list.
Proof.
  unfold respond, speak, print, modify.
  destruct (voice_enabled config); eexists; (split; [reflexivity|]);
    now repeat split.
Qed.

(** The counters after [record_result], whether the average could be
    computed or not. *)
Lemma record_result_counts command intent result w :
  let m := metrics w in
  let m' := metrics (world_after
                       (record_result env config command intent result) w) in
  total_commands m' = (total_commands m + 1)%Z /\
  successful_commands m'
  = (if success result then successful_commands m + 1
     else successful_commands m)%Z /\
  failed_commands m'
  = (if success result then failed_commands m
     else failed_commands m + 1)%Z.
Proof.
  unfold world_after, record_result, mbind, py_bind, bind, update_metrics,
    get_metrics, modify, truediv, log_execution_result, respond, speak,
    print, raise, ret.
  destruct (success result); simpl;
    destruct (total_commands (metrics w) + 1 =? 0)%Z; simpl;
    destruct (voice_enabled config); simpl; now repeat split.
Qed.

(** [record_result] when the incremented count is not zero. *)
Lemma record_result_ok command intent result w :
  (total_commands (metrics w) + 1 <> 0)%Z ->
  exists w',
    record_result env config command intent result w = (Ret tt, w') /\
    average_response_time (metrics w')
    = ((average_response_time (metrics w)
        * float_of_int (total_commands (metrics w))
        + execution_time result)
       / float_of_int (total_commands (metrics w) + 1))%float /\
    exec_log w'
    = (exec_log w
       ++ [mkLogEntry (Some (isoformat_at env (clock_reads w)))
             (Some command) (Some intent) (Some result)
             (Some (execution_time result))])%list.
Proof.
  intros Hn.
  unfold record_result, mbind, py_bind, bind, update_metrics,
    get_metrics, modify, truediv, log_execution_result, respond, speak,
    print, raise, ret.
  apply Z.eqb_neq in Hn.
  destruct (success result); simpl; rewrite Hn; simpl;
    replace (total_commands (metrics w) + 1 - 1)%Z
      with (total_commands (metrics w)) by lia;
    destruct (voice_enabled config); simpl;
    (eexists; split; [reflexivity|]; now split).
Qed.

(** [record_result] when the incremented count is zero. *)
Lemma record_result_zero command intent result w :
  (total_commands (metrics w) + 1 = 0)%Z ->
  exists w',
    record_result env config command intent result w
    = (Raise (ZeroDivisionError "float division by zero"), w').
Proof.
  intros Hn.
  unfold record_result, mbind, py_bind, bind, update_metrics,
    get_metrics, modify, truediv, raise.
  apply Z.eqb_eq in Hn.
  destruct (success result); simpl; rewrite Hn; simpl; now eexists.
Qed.

(** A command that passes the confidence test is dispatched and its result
    recorded. *)
Lemma process_command_dispatched command w conf :
  confidence (parse_command command) = Some conf ->
  (conf <? 0.5)%float = false ->
  exists r w1,
    execute_intent env config (parse_command command)
      (after_parse command w) = (Ret r, w1) /\
    metrics w1 = metrics w /\ exec_log w1 = exec_log w /\
    process_command env config command w
    = record_result env config command (parse_command command) r w1.
Proof.
  intros Hc Hg. rewrite (process_command_unfold _ _ _ Hc), Hg.
  destruct (execute_intent_returns env config
              (fun w => (metrics w, exec_log w))
              (fun _ _ => eq_refl) (fun _ _ => eq_refl)
              (fun _ _ => eq_refl) (fun _ _ => eq_refl)
              (parse_command command) (after_parse command w))
    as [r [w1 [E F]]].
  exists r, w1. injection F as Fm Fl.
  repeat split; [exact E | exact Fm | exact Fl |].
  unfold mbind, py_bind, bind. now rewrite E.
Qed.

(** The counters stay consistent and the count non-negative, and the
    command returns. *)
Lemma process_command_step command w :
  consistent (metrics w) -> (0 <= total_commands (metrics w))%Z ->
  exists w',
    process_command env config command w = (Ret tt, w') /\
    consistent (metrics w') /\ (0 <= total_commands (metrics w'))%Z.
Proof.
  intros Hcons Hpos.
  destruct (confidence_some command) as [conf Hc].
  destruct (conf <? 0.5)%float eqn:Hg.
  - rewrite (process_command_unfold _ _ _ Hc), Hg.
    destruct (respond_run (clarification command) (after_parse command w))
      as [w' [E [_ [_ [_ [_ [_ [Hm _]]]]]]]].
    exists w'. split; [exact E|]. now rewrite Hm.
  - destruct (process_command_dispatched command w conf Hc Hg)
      as [r [w1 [_ [Hm [_ E]]]]].
    rewrite E.
    destruct (record_result_ok command (parse_command command) r w1)
      as [w' [E' _]]; [rewrite Hm; lia|].
    exists w'. split; [exact E'|].
    pose proof (record_result_counts command (parse_command command) r w1)
      as [Ht [Hs Hf]].
    unfold world_after in *. rewrite E' in *. simpl in *.
    rewrite Hm in *. unfold consistent in *.
    destruct (success r); lia.
Qed.

Lemma run_from command_list w :
  consistent (metrics w) -> (0 <= total_commands (metrics w))%Z ->
  exists w',
    run env config command_list w = (Ret tt, w') /\
    consistent (metrics w') /\ (0 <= total_commands (metrics w'))%Z.
Proof.
  revert w. induction command_list as [|command rest IH]; intros w Hc Hp.
  - exists w. now repeat split.
  - destruct (process_command_step command w Hc Hp) as [w1 [E [Hc1 Hp1]]].
    destruct (IH w1 Hc1 Hp1) as [w' [E' H']].
    exists w'. split; [|exact H'].
    simpl. unfold mbind, py_bind, bind. now rewrite E.
Qed.

End ProcessFacts.

(** Every dispatch reads the clock twice. *)
Lemma execute_intent_reads_clock env config intent w :
  clock_reads (world_after (execute_intent env config intent) w)
  = S (S (clock_reads w)).
Proof.
  unfold world_after, execute_intent, mbind, py_bind, bind, try_except,
    time_time.
  pose proof (frame_dispatch env clock_reads (fun _ _ => eq_refl)
                (fun _ _ => eq_refl) intent
                (with_clock_reads (S (clock_reads w)) w)) as F.
  destruct (dispatch env intent (with_clock_reads (S (clock_reads w)) w))
    as [[r0|e] w1]; simpl in F.
  - simpl. now rewrite F.
  - unfold logger, modify, _capture_screenshot.
    destruct (screenshot_on_error config);
      [destruct (grab env) as [[path image]|]|]; simpl; now rewrite F.
Qed.

(** C3.  The dispatch boundary: [execute_intent] returns a result for every
    intent and never raises; its [execution_time] is the clock reading after
    the dispatch minus the reading before it, whatever the outcome; and when
    the dispatch raises, [success] is false, [error] holds the text of the
    exception and, when [screenshot_on_error] is set, [screenshot] holds what
    the capture returned. *)
Theorem dispatch_failure_boundary (env : Env) (config : Config)
    (intent : Intent) (w : World) :
  exists r w',
    execute_intent env config intent w = (Ret r, w') /\
    execution_time r
    = (clock_at env (S (clock_reads w)) - clock_at env (clock_reads w))%float /\
    forall e w1,
      dispatch env intent (with_clock_reads (S (clock_reads w)) w)
      = (Raise e, w1) ->
      success r = false /\
      error r = Some (exn_str e) /\
      (screenshot_on_error config = true -> screenshot r = fst <$> grab env).
Proof.
  unfold execute_intent, mbind, py_bind, bind, try_except, time_time.
  pose proof (frame_dispatch env clock_reads (fun _ _ => eq_refl)
                (fun _ _ => eq_refl) intent
                (with_clock_reads (S (clock_reads w)) w)) as F.
  destruct (dispatch env intent (with_clock_reads (S (clock_reads w)) w))
    as [[r0|e] w1]; simpl in F.
  - eexists _, _. split; [reflexivity|]. split.
    + simpl. now rewrite F.
    + intros e w2 [=].
  - unfold logger, modify, _capture_screenshot.
    destruct (screenshot_on_error config).
    + destruct (grab env) as [[path image]|];
        (eexists _, _; split; [reflexivity|]; split;
         [simpl; now rewrite F | intros e' w2 [= <- <-]; now repeat split]).
    + eexists _, _. split; [reflexivity|]. split.
      * simpl. now rewrite F.
      * intros e' w2 [= <- <-]. now repeat split.
Qed.

(** The boundary at an intent without target: the launch handler raises
    [KeyError], and the result records it. *)
Lemma dispatch_failure_boundary_witness :
  dispatch sample_env targetless_intent
    (with_clock_reads 1 initial_world)
  = (Raise (KeyError "target"), with_clock_reads 1 initial_world) /\
  exists r w',
    execute_intent sample_env sample_config targetless_intent initial_world
    = (Ret r, w') /\
    execution_time r = 2%float /\
    success r = false /\
    error r = Some "'target'" /\
    screenshot r = Some "screenshots/error_20250101_000000.png".
Proof.
  split; [reflexivity|].
  destruct (dispatch_failure_boundary sample_env sample_config
              targetless_intent initial_world) as [r [w' [E [T H]]]].
  exists r, w'. split; [exact E|].
  destruct (H (KeyError "target") (with_clock_reads 1 initial_world)
              eq_refl) as [Hs [He Hp]].
  split; [rewrite T; reflexivity|]. split; [exact Hs|].
  split; [exact He | exact (Hp eq_refl)].
Defined.

(** C7.  Deleting a file that does not exist: for a [file_operation] intent
    with target [delete] whose file name (the parameter, or "untitled.txt")
    names no file, [execute_intent] returns a result with [success] false and
    the message "File not found: <name>"; no exception is raised or caught,
    and the world differs only in the two clock readings: no file is removed
    or modified. *)
Theorem delete_missing_file (env : Env) (config : Config) (intent : Intent)
    (params : gmap string string) (w : World) :
  action intent = Some "file_operation" ->
  target intent = Some "delete" ->
  parameters intent = Some params ->
  files w !! default "untitled.txt" (params !! "filename") = None ->
  exists r,
    execute_intent env config intent w
    = (Ret r, with_clock_reads (S (S (clock_reads w))) w) /\
    success r = false /\
    message r
    = "File not found: " ++ default "untitled.txt" (params !! "filename") /\
    error r = None /\
    files (world_after (execute_intent env config intent) w) = files w.
Proof.
  intros Ha Ht Hp Hf.
  assert (E : execute_intent env config intent w
              = (Ret (mkResult false
                        ("File not found: "
                         ++ default "untitled.txt" (params !! "filename"))
                        (clock_at env (S (clock_reads w))
                         - clock_at env (clock_reads w))%float None None),
                 with_clock_reads (S (S (clock_reads w))) w)).
  { unfold execute_intent, dispatch, _execute_file_operation, mbind,
      py_bind, fmap, py_fmap, bind, try_except, time_time, getitem, ret,
      path_exists.
    rewrite Ha, Ht, Hp. simpl. rewrite Hf.
    rewrite bool_decide_eq_false_2 by (intros [x Hx]; discriminate).
    reflexivity. }
  eexists. split; [exact E|]. unfold world_after. rewrite E.
  now repeat split.
Qed.

Lemma delete_missing_file_witness :
  exists r,
    execute_intent sample_env sample_config delete_intent initial_world
    = (Ret r, with_clock_reads 2 initial_world) /\
    success r = false /\
    message r = "File not found: gone.txt" /\
    error r = None /\
    files (world_after
             (execute_intent sample_env sample_config delete_intent)
             initial_world) = files initial_world.
Proof.
  exact (delete_missing_file sample_env sample_config delete_intent
           {[ "filename" := "gone.txt" ]} initial_world
           eq_refl eq_refl eq_refl eq_refl).
Defined.

(** C8.  The classification-miss gate: a command whose intent has a
    confidence below 0.5 is answered with the clarification request and
    nothing else happens.  The metrics and the execution log are unchanged,
    so the miss is counted neither as a command nor as a failure; the clock,
    the files and the launched processes are unchanged, so no dispatch took
    place ([execute_intent_reads_clock]: every dispatch reads the clock). *)
Theorem classification_miss_gate (env : Env) (config : Config)
    (command : string) (conf : float) (w : World) :
  confidence (parse_command command) = Some conf ->
  (conf <? 0.5)%float = true ->
  exists w',
    process_command env config command w = (Ret tt, w') /\
    metrics w' = metrics w /\
    exec_log w' = exec_log w /\
    clock_reads w' = clock_reads w /\
    files w' = files w /\
    spawned w' = spawned w /\
    console w'
    = (console w ++ [("SmartOS: " ++ clarification command)%string])%list.
Proof.
  intros Hc Hg. rewrite (process_command_unfold env config _ _ _ Hc), Hg.
  destruct (respond_run config (clarification command)
              (after_parse command w))
    as [w' [E [Hf [Hs [Hk [_ [Hl [Hm Ho]]]]]]]].
  exists w'. now repeat split.
Qed.

Lemma classification_miss_gate_witness :
  exists w',
    process_command sample_env sample_config "asdkj qwoei" initial_world
    = (Ret tt, w') /\
    metrics w' = metrics initial_world /\
    exec_log w' = exec_log initial_world /\
    clock_reads w' = clock_reads initial_world /\
    files w' = files initial_world /\
    spawned w' = spawned initial_world /\
    console w'
    = (console initial_world
       ++ [("SmartOS: " ++ clarification "asdkj qwoei")%string])%list.
Proof.
  exact (classification_miss_gate sample_env sample_config "asdkj qwoei"
           0%float initial_world eq_refl eq_refl).
Defined.

(** C1.  The incremental average.  Recording one more result with execution
    time [t] on metrics with average [a] and a count [n >= 0] stores the
    average [(a * n + t) / (n + 1)], in binary64 arithmetic; so does a
    command that passes the confidence test, [t] being the execution time
    of its log entry.  From the initial metrics, three commands that take
    2.0, 4.0 and 6.0 seconds leave the averages 2.0, 3.0 and 4.0. *)
Theorem incremental_average :
  (forall env config command intent result w,
      (0 <= total_commands (metrics w))%Z ->
      exists w',
        record_result env config command intent result w = (Ret tt, w') /\
        average_response_time (metrics w')
        = ((average_response_time (metrics w)
            * float_of_int (total_commands (metrics w))
            + execution_time result)
           / float_of_int (total_commands (metrics w) + 1))%float) /\
  (forall env config command conf w,
      confidence (parse_command command) = Some conf ->
      (conf <? 0.5)%float = false ->
      (0 <= total_commands (metrics w))%Z ->
      exists t w',
        process_command env config command w = (Ret tt, w') /\
        entry_execution_time <$> last (exec_log w') = Some (Some t) /\
        average_response_time (metrics w')
        = ((average_response_time (metrics w)
            * float_of_int (total_commands (metrics w)) + t)
           / float_of_int (total_commands (metrics w) + 1))%float) /\
  (let step := process_command sample_env sample_config "open notepad" in
   let w1 := world_after step initial_world in
   let w2 := world_after step w1 in
   let w3 := world_after step w2 in
   average_response_time (metrics initial_world) = 0%float /\
   total_commands (metrics initial_world) = 0%Z /\
   map entry_execution_time (exec_log w3)
   = [Some 2%float; Some 4%float; Some 6%float] /\
   average_response_time (metrics w1) = 2%float /\
   average_response_time (metrics w2) = 3%float /\
   average_response_time (metrics w3) = 4%float).
Proof.
  split; [|split].
  - intros env config command intent result w Hn.
    destruct (record_result_ok env config command intent result w)
      as [w' [E [Ha _]]]; [lia|].
    exists w'. now split.
  - intros env config command conf w Hc Hg Hn.
    destruct (process_command_dispatched env config command w conf Hc Hg)
      as [r [w1 [_ [Hm [_ E]]]]].
    destruct (record_result_ok env config command
                (parse_command command) r w1)
      as [w' [E' [Ha Hl]]]; [rewrite Hm; lia|].
    exists (execution_time r), w'. split; [congruence|]. split.
    + rewrite Hl, last_snoc. reflexivity.
    + now rewrite Ha, Hm.
  - vm_compute. now repeat split.
Qed.

Lemma incremental_average_witness :
  exists w',
    record_result sample_env sample_config "open notepad"
      (parse_command "open notepad")
      (mkResult true "Successfully launched notepad" 2 None None)
      initial_world = (Ret tt, w') /\
    average_response_time (metrics w')
    = ((0 * float_of_int 0 + 2) / float_of_int (0 + 1))%float.
Proof.
  apply (proj1 incremental_average sample_env sample_config "open notepad"
           (parse_command "open notepad")
           (mkResult true "Successfully launched notepad" 2 None None)
           initial_world).
  simpl. lia.
Defined.

(** C10.  The average is never divided by zero.  The divisor is the count
    after its increment: [record_result] raises [ZeroDivisionError] exactly
    when that count is zero, and with a count [n >= 0] before the command
    it returns with the count [n + 1 >= 1].  Every session that starts from
    the initial metrics returns, its first command included, and leaves a
    count that is again non-negative. *)
Theorem average_division_guarded :
  (forall env config command intent result w,
      ((total_commands (metrics w) + 1 = 0)%Z ->
       exists w',
         record_result env config command intent result w
         = (Raise (ZeroDivisionError "float division by zero"), w')) /\
      ((0 <= total_commands (metrics w))%Z ->
       exists w',
         record_result env config command intent result w = (Ret tt, w') /\
         total_commands (metrics w') = (total_commands (metrics w) + 1)%Z /\
         (1 <= total_commands (metrics w'))%Z)) /\
  (forall env config command_list,
      exists w',
        run env config command_list initial_world = (Ret tt, w') /\
        (0 <= total_commands (metrics w'))%Z).
Proof.
  split.
  - intros env config command intent result w. split.
    + apply record_result_zero.
    + intros Hn.
      destruct (record_result_ok env config command intent result w)
        as [w' [E _]]; [lia|].
      pose proof (record_result_counts env config command intent result w)
        as [Ht _].
      unfold world_after in Ht. rewrite E in Ht. simpl in Ht.
      exists w'. split; [exact E|]. split; [exact Ht | lia].
  - intros env config command_list.
    destruct (run_from env config command_list initial_world)
      as [w' [E [_ Hp]]]; [reflexivity | simpl; lia |].
    now exists w'.
Qed.

Lemma average_division_guarded_witness :
  exists w',
    record_result sample_env sample_config "open notepad"
      (parse_command "open notepad")
      (mkResult true "Successfully launched notepad" 2 None None)
      initial_world = (Ret tt, w') /\
    total_commands (metrics w')
    = (total_commands (metrics initial_world) + 1)%Z /\
    (1 <= total_commands (metrics w'))%Z.
Proof.
  apply (proj2 (proj1 average_division_guarded sample_env sample_config
                  "open notepad" (parse_command "open notepad")
                  (mkResult true "Successfully launched notepad" 2 None None)
                  initial_world)).
  simpl. lia.
Defined.

(** ** The metrics collector *)

Module CollectorFacts.
Import Collector.

Lemma count_mono {A} (p q : A -> bool) l :
  (forall x, p x = true -> q x = true) -> (count p l <= count q l)%Z.
Proof.
  intros H. unfold count. apply inj_le.
  induction l as [|x l IH]; simpl; [lia|].
  destruct (p x) eqn:Hp.
  - rewrite (H x Hp). simpl. lia.
  - destruct (q x); simpl; lia.
Qed.

Lemma count_le_length {A} (p : A -> bool) l :
  (count p l <= Z.of_nat (length l))%Z.
Proof.
  unfold count. apply inj_le.
  induction l as [|x l IH]; simpl; [lia|]. destruct (p x); simpl; lia.
Qed.

Lemma count_complement {A} (p q : A -> bool) l :
  (forall x, In x l -> p x = negb (q x)) ->
  (count p l + count q l = Z.of_nat (length l))%Z.
Proof.
  unfold count. induction l as [|x l IH]; intros H; simpl; [reflexivity|].
  rewrite (H x (or_introl eq_refl)).
  assert (IH' := IH (fun y Hy => H y (or_intror Hy))).
  destruct (q x); simpl; lia.
Qed.

Lemma omap_length_le {A B} (f : A -> option B) (l : list A) :
  (length (omap f l) <= length l)%nat.
Proof.
  induction l as [|x l IH]; cbn; [lia|]. destruct (f x); simpl; lia.
Qed.

(** Below a positive literal of smaller exponent, below one of larger. *)
Lemma SFltb_literal_mono x m1 e1 m2 e2 :
  (e1 < e2)%Z ->
  SFltb x (S754_finite false m1 e1) = true ->
  SFltb x (S754_finite false m2 e2) = true.
Proof.
  intros He. unfold SFltb, SFcompare.
  destruct x as [sx|sx| |sx mx ex]; try (destruct sx); try easy.
  destruct (Z.compare_spec ex e1) as [->|Hl|Hg]; try easy.
  - intros _. now rewrite (proj2 (Z.compare_lt_iff e1 e2) He).
  - intros _. now rewrite (proj2 (Z.compare_lt_iff ex e2)) by lia.
Qed.

(** Against a positive literal, [<] and [>=] are complementary on numbers. *)
Lemma SFltb_literal_complement x m e :
  x <> S754_nan ->
  SFltb x (S754_finite false m e) = negb (SFleb (S754_finite false m e) x).
Proof.
  intros Hx. unfold SFltb, SFleb, SFcompare.
  destruct x as [sx|sx| |sx mx ex]; try (destruct sx); try easy.
  rewrite (Z.compare_antisym ex e).
  destruct (Z.compare_spec ex e) as [->|Hl|Hg]; simpl; try reflexivity.
  pose proof (Pos.compare_cont_antisym mx m Eq) as Ha. simpl in Ha.
  rewrite <- Ha. now destruct (Pos.compare_cont Eq mx m).
Qed.

Lemma not_nan_spec t : is_nan t = false -> Prim2SF t <> S754_nan.
Proof.
  unfold is_nan. rewrite FloatAxioms.eqb_spec. intros H E. rewrite E in H.
  discriminate.
Qed.

Lemma one_spec : Prim2SF 1 = S754_finite false 4503599627370496 (-52).
Proof. reflexivity. Qed.

Lemma three_spec : Prim2SF 3 = S754_finite false 6755399441055744 (-51).
Proof. reflexivity. Qed.

Lemma five_spec : Prim2SF 5 = S754_finite false 5629499534213120 (-50).
Proof. reflexivity. Qed.

Lemma under_1_under_3 t : (t <? 1)%float = true -> (t <? 3)%float = true.
Proof.
  rewrite !FloatAxioms.ltb_spec, one_spec, three_spec.
  now apply SFltb_literal_mono.
Qed.

Lemma under_3_under_5 t : (t <? 3)%float = true -> (t <? 5)%float = true.
Proof.
  rewrite !FloatAxioms.ltb_spec, three_spec, five_spec.
  now apply SFltb_literal_mono.
Qed.

Lemma under_5_or_over t :
  is_nan t = false -> (t <? 5)%float = negb (5 <=? t)%float.
Proof.
  intros H. rewrite FloatAxioms.ltb_spec, FloatAxioms.leb_spec, five_spec.
  apply SFltb_literal_complement. now apply not_nan_spec.
Qed.

End CollectorFacts.

Import Collector.

(** C5.  The cumulative histogram.  For every record set, read as its
    consumers read it (an absent key is 0),
    [under_1s <= under_3s <= under_5s <= total_commands]; [under_3s] and
    [under_5s] count the recorded times below 3.0 and below 5.0, each time
    below 1.0 being below 3.0 and each time below 3.0 below 5.0; and
    [over_5s] counts the other recorded times, when every recorded time is
    a number. *)
Theorem cumulative_histogram (data : list LogEntry) :
  let m := calculate_performance_metrics data in
  let times := omap entry_execution_time data in
  ((get under_1s m <= get under_3s m)%Z /\
   (get under_3s m <= get under_5s m)%Z /\
   (get under_5s m <= get ov_total_commands m)%Z) /\
  get under_3s m = count (fun t => (t <? 3)%float) times /\
  get under_5s m = count (fun t => (t <? 5)%float) times /\
  (forall t, (t <? 1)%float = true -> (t <? 3)%float = true) /\
  (forall t, (t <? 3)%float = true -> (t <? 5)%float = true) /\
  ((forall t, In t times -> is_nan t = false) ->
   (get under_5s m + get over_5s m)%Z = Z.of_nat (length times)).
Proof.
  destruct data as [|d data]; cbv zeta.
  - simpl. repeat split; try lia;
      auto using CollectorFacts.under_1_under_3,
                 CollectorFacts.under_3_under_5.
  - unfold calculate_performance_metrics, get, from_option.
    cbv beta iota zeta.
    set (times := omap entry_execution_time (d :: data)).
    cbn [under_1s under_3s under_5s over_5s ov_total_commands].
    split; [|split; [|split; [|split; [|split]]]].
    + split; [|split].
      * apply CollectorFacts.count_mono, CollectorFacts.under_1_under_3.
      * apply CollectorFacts.count_mono, CollectorFacts.under_3_under_5.
      * etransitivity; [apply CollectorFacts.count_le_length|].
        apply inj_le, CollectorFacts.omap_length_le.
    + reflexivity.
    + reflexivity.
    + apply CollectorFacts.under_1_under_3.
    + apply CollectorFacts.under_3_under_5.
    + intros H. apply CollectorFacts.count_complement.
      intros t Ht. now apply CollectorFacts.under_5_or_over, H.
Qed.

(** C6.  Count consistency.  The batch snapshot of every record set has
    [total_commands = successful_commands + failed_commands]; the initial
    metrics of the pipeline have it, every processed command preserves it
    whatever its outcome, and every session from the initial state returns
    with it. *)
Theorem count_consistency :
  (forall data : list LogEntry,
      let m := calculate_performance_metrics data in
      get ov_total_commands m
      = (get ov_successful_commands m + get ov_failed_commands m)%Z) /\
  consistent initial_metrics /\
  (forall env config command w,
      consistent (metrics w) ->
      consistent
        (metrics (world_after (process_command env config command) w))) /\
  (forall env config command_list,
      exists w',
        run env config command_list initial_world = (Ret tt, w') /\
        consistent (metrics w')).
Proof.
  split; [|split; [|split]].
  - intros [|d data]; cbv zeta; [reflexivity|].
    unfold calculate_performance_metrics, get, from_option.
    cbn [ov_total_commands ov_successful_commands ov_failed_commands]. lia.
  - reflexivity.
  - intros env config command w Hc.
    destruct (confidence_some command) as [conf Hconf].
    unfold world_after.
    rewrite (process_command_unfold env config _ _ _ Hconf).
    destruct (conf <? 0.5)%float.
    + destruct (respond_run config (clarification command)
                  (after_parse command w))
        as [w' [E [_ [_ [_ [_ [_ [Hm _]]]]]]]].
      rewrite E. simpl. now rewrite Hm.
    + destruct (execute_intent_returns env config metrics
                  (fun _ _ => eq_refl) (fun _ _ => eq_refl)
                  (fun _ _ => eq_refl) (fun _ _ => eq_refl)
                  (parse_command command) (after_parse command w))
        as [r [w1 [E Hm]]].
      unfold mbind, py_bind, bind. rewrite E.
      pose proof (record_result_counts env config command
                    (parse_command command) r w1) as [Ht [Hs Hf]].
      unfold world_after in *. simpl in Hm. rewrite Hm in *.
      unfold consistent in *. destruct (success r); lia.
  - intros env config command_list.
    destruct (run_from env config command_list initial_world)
      as [w' [E [Hc _]]]; [reflexivity | simpl; lia |].
    now exists w'.
Qed.

Lemma count_consistency_witness :
  consistent
    (metrics (world_after
                (process_command sample_env sample_config "open notepad")
                initial_world)).
Proof.
  apply (proj1 (proj2 (proj2 count_consistency)) sample_env sample_config
           "open notepad" initial_world).
  reflexivity.
Defined.

Lemma cumulative_histogram_witness :
  let data :=
    [mkLogEntry None None None None (Some 0.5%float);
     mkLogEntry None None None None (Some 4%float);
     mkLogEntry None None None None None] in
  let m := calculate_performance_metrics data in
  (get under_5s m + get over_5s m)%Z
  = Z.of_nat (length (omap entry_execution_time data)).
Proof.
  intros data m.
  apply (proj2 (proj2 (proj2 (proj2 (proj2 (cumulative_histogram data)))))).
  intros t [<-|[<-|[]]]; reflexivity.
Defined.

(** * Further properties of the code *)

(** ** The classifier, beyond the claims *)

Module NLUShape.
Import PyStrFacts NLUFacts.

Lemma first_target_in (table : list (string * list string)) cl t :
  first_target table cl = Some t -> In t (map fst table).
Proof.
  unfold first_target. destruct (List.find _ table) as [[k a]|] eqn:E;
    [|discriminate].
  intros [= <-]. apply find_some in E as [Hin _].
  now apply (in_map fst) in Hin.
Qed.

Lemma any_in_false kws cl :
  any_in kws cl = false <-> forall kw, In kw kws -> contains kw cl = false.
Proof.
  unfold any_in. split.
  - intros H kw Hin. destruct (contains kw cl) eqn:E; [|reflexivity].
    assert (existsb (fun a => contains a cl) kws = true)
      by (apply existsb_exists; now exists kw).
    congruence.
  - intros H. destruct (existsb _ kws) eqn:E; [|reflexivity].
    apply existsb_exists in E as [kw [Hin Hc]]. now rewrite (H kw Hin) in Hc.
Qed.

(** Every trigger keyword of the file group is an alias of its own action:
    when one occurs, an action is resolved. *)
Lemma file_target_resolved cl :
  any_in (file_keywords intent_patterns) cl = true ->
  exists t, first_target (file_actions intent_patterns) cl = Some t.
Proof.
  intros H. destruct (first_target _ cl) as [t|] eqn:E; [now exists t|].
  exfalso. unfold first_target in E.
  destruct (List.find _ (file_actions intent_patterns)) eqn:F;
    [discriminate|].
  assert (N : forall e, In e (file_actions intent_patterns) ->
                        any_in (snd e) cl = false)
    by (intros e He; exact (find_none _ _ F e He)).
  assert (K : any_in (file_keywords intent_patterns) cl = false).
  { apply any_in_false. intros kw Hkw. simpl in Hkw.
    destruct Hkw as [<-|[<-|[<-|[<-|[<-|[<-|[]]]]]]];
      match goal with
      | |- contains ?k cl = false =>
          match eval simpl in (List.find (fun e => String.eqb (fst e) k)
                                 (file_actions intent_patterns)) with
          | Some ?e =>
              exact (proj1 (any_in_false (snd e) cl)
                       (N e ltac:(simpl; tauto)) k ltac:(simpl; tauto))
          end
      end. }
  congruence.
Qed.

Lemma filename_after_in words name :
  filename_after words = Some name -> In name words.
Proof.
  induction words as [|w ws IH]; [discriminate|].
  destruct ws as [|n ws']; [discriminate|].
  cbn [filename_after]. destruct (mem _ _).
  - intros [= <-]. simpl; tauto.
  - intros H. right. now apply IH.
Qed.

(** The shape of every answer of the classifier. *)
Lemma parse_command_shape command :
  exists a t p c,
    parse_command command
    = mkIntent (Some a) (Some t) (Some p) (Some c) (Some command) /\
    ((a = "unknown" /\ t = "" /\ c = 0%float /\ p = ∅) \/
     (a = "open_application" /\ p = ∅ /\
      ((t = "" /\ c = 0%float) \/
       (In t (map fst (open_apps intent_patterns)) /\ c = 0.9%float))) \/
     (a = "file_operation" /\
      In t (map fst (file_actions intent_patterns)) /\ c = 0.8%float /\
      (p = ∅ \/
       exists name, In name (split command) /\ p = {[ "filename" := name ]})) \/
     (a = "system_control" /\ p = ∅ /\
      In t (system_keywords intent_patterns) /\ c = 0.85%float) \/
     (a = "content_creation" /\
      ((t = "" /\ c = 0%float /\ p = ∅) \/
       (In t (content_types intent_patterns) /\ c = 0.75%float /\
        (p = ∅ \/ exists topic, p = {[ "topic" := topic ]}))))).
Proof.
  unfold parse_command, parse_command_with. cbv zeta.
  set (cl := strip (lower command)).
  unfold detect_open.
  destruct (any_in (open_keywords intent_patterns) cl) eqn:Ko.
  { destruct (first_target (open_apps intent_patterns) cl) as [t|] eqn:T.
    - apply first_target_in in T.
      eexists _, _, _, _. split; [reflexivity|]. right; left. auto.
    - eexists _, _, _, _. split; [reflexivity|]. right; left. auto. }
  change (action_is_unknown (unknown_intent command)) with true. cbv iota.
  unfold detect_file.
  destruct (any_in (file_keywords intent_patterns) cl) eqn:Kf.
  { destruct (file_target_resolved cl Kf) as [t T]. rewrite T.
    apply first_target_in in T.
    destruct (contains "file" cl || contains "document" cl).
    - destruct (filename_after (split command)) as [name|] eqn:F.
      + eexists _, _, _, _. split; [reflexivity|]. right; right; left.
        repeat split; auto. right. exists name. split; [|reflexivity].
        now apply filename_after_in.
      + eexists _, _, _, _. split; [reflexivity|]. right; right; left. auto.
    - eexists _, _, _, _. split; [reflexivity|]. right; right; left. auto. }
  change (action_is_unknown (unknown_intent command)) with true. cbv iota.
  unfold detect_system.
  destruct (List.find _ (system_keywords intent_patterns)) as [kw|] eqn:Ks.
  { apply find_some in Ks as [Hin _].
    eexists _, _, _, _. split; [reflexivity|]. right; right; right; left.
    auto. }
  change (action_is_unknown (unknown_intent command)) with true. cbv iota.
  unfold detect_content.
  destruct (existsb _ (content_keywords intent_patterns)) eqn:Kc.
  { destruct (List.find _ (content_types intent_patterns)) as [ct|] eqn:T.
    - apply find_some in T as [Hin _].
      destruct (contains "about" cl);
        (eexists _, _, _, _; split; [reflexivity|]; do 4 right;
         split; [reflexivity|]; right; repeat split; eauto).
    - eexists _, _, _, _. split; [reflexivity|]. do 4 right. auto. }
  eexists _, _, _, _. split; [reflexivity|]. left. auto.
Qed.

Lemma table_targets_named t :
  In t (map fst (open_apps intent_patterns))
  \/ In t (map fst (file_actions intent_patterns))
  \/ In t (system_keywords intent_patterns)
  \/ In t (content_types intent_patterns) ->
  t <> "".
Proof. intros H ->. simpl in H. intuition discriminate. Qed.

Lemma free_of_space_app a b :
  free_of_space (a ++ b) = free_of_space a && free_of_space b.
Proof.
  induction a as [|c a IH]; [reflexivity|].
  rewrite app_cons. simpl. rewrite IH. now rewrite andb_assoc.
Qed.

(** The words of [split] are non-empty and free of white space. *)
Lemma split_go_tokens s :
  forall tok t,
    free_of_space tok = true -> In t (split_go s tok) ->
    free_of_space t = true /\ t <> "".
Proof.
  induction s as [|c s IH]; intros tok t Htok Hin.
  - destruct tok; simpl in Hin; [contradiction|].
    destruct Hin as [<-|[]]. now split.
  - simpl in Hin. destruct (isspace c) eqn:Hc.
    + destruct tok.
      * now apply (IH "").
      * destruct Hin as [<-|Hin]; [now split | now apply (IH "")].
    + apply (IH (tok ++ String c "")); [|exact Hin].
      rewrite free_of_space_app, Htok. simpl. now rewrite Hc.
Qed.

Lemma split_tokens s t :
  In t (split s) -> free_of_space t = true /\ t <> "".
Proof. now apply split_go_tokens. Qed.

Lemma existsb_concat_map {A B} (f : B -> bool) (g : A -> list B) l :
  existsb f (concat (map g l)) = existsb (fun x => existsb f (g x)) l.
Proof.
  induction l as [|x l IH]; [reflexivity|].
  simpl. now rewrite existsb_app, IH.
Qed.

Lemma find_existsb {A} (f : A -> bool) l :
  existsb f l = match List.find f l with Some _ => true | None => false end.
Proof.
  induction l as [|x l IH]; [reflexivity|]. simpl.
  now destruct (f x).
Qed.

Lemma any_in_trigger_words cl :
  any_in trigger_words cl
  = any_in (open_keywords intent_patterns) cl
    || any_in (file_keywords intent_patterns) cl
    || match List.find (fun keyword => contains keyword cl)
               (system_keywords intent_patterns) with
       | Some _ => true
       | None => false
       end
    || existsb (fun keyword => any_in (split keyword) cl)
         (content_keywords intent_patterns).
Proof.
  unfold trigger_words, any_in.
  rewrite !existsb_app, existsb_concat_map, <- find_existsb.
  now rewrite !orb_assoc.
Qed.

End NLUShape.

Import NLUShape.

Example trigger_words_listed :
  trigger_words
  = ["open"; "launch"; "start"; "run";
     "create"; "write"; "save"; "delete"; "copy"; "move";
     "shutdown"; "restart"; "sleep"; "hibernate"; "lock";
     "write"; "essay"; "create"; "document"; "compose"; "draft"].
Proof. reflexivity. Qed.

(** X1.  The confidence tells whether a target was resolved: every intent
    of the classifier either has an empty target and confidence 0.0, below
    the 0.5 gate, or a non-empty target and the constant of its group
    (0.90, 0.80, 0.85, 0.75), above the gate. *)
Theorem confidence_reflects_target (command : string) :
  exists a t c,
    action (parse_command command) = Some a /\
    target (parse_command command) = Some t /\
    confidence (parse_command command) = Some c /\
    ((t = "" /\ c = 0%float /\ (c <? 0.5)%float = true) \/
     (t <> "" /\ (c <? 0.5)%float = false /\
      ((a = "open_application" /\ c = 0.9%float) \/
       (a = "file_operation" /\ c = 0.8%float) \/
       (a = "system_control" /\ c = 0.85%float) \/
       (a = "content_creation" /\ c = 0.75%float)))).
Proof.
  destruct (parse_command_shape command) as [a [t [p [c [E H]]]]].
  exists a, t, c. rewrite E. repeat split.
  destruct H as [[-> [-> [-> _]]]
               |[[-> [_ [[-> ->]|[Ht ->]]]]
               |[[-> [Ht [-> _]]]
               |[[-> [_ [Ht ->]]]
               |[-> [[-> [-> _]]|[Ht [-> _]]]]]]]];
    try (left; now repeat split);
    (right; split; [apply table_targets_named; tauto|]);
    (split; [reflexivity|]); tauto.
Qed.

(** X2.  A command of the file group or of the system group always has a
    target: its intent is never held back by the confidence gate. *)
Theorem file_and_system_resolve (command a : string) :
  action (parse_command command) = Some a ->
  a = "file_operation" \/ a = "system_control" ->
  exists t c,
    target (parse_command command) = Some t /\ t <> "" /\
    confidence (parse_command command) = Some c /\
    (c <? 0.5)%float = false.
Proof.
  destruct (parse_command_shape command) as [a' [t [p [c [E H]]]]].
  rewrite E. simpl. intros [= <-] Ha. exists t, c.
  destruct H as [[-> _]
               |[[-> _]
               |[[-> [Ht [-> _]]]
               |[[-> [_ [Ht ->]]]
               |[-> _]]]]];
    try (destruct Ha; discriminate);
    (repeat split; [apply table_targets_named; tauto]).
Qed.

Lemma file_and_system_resolve_witness :
  exists t c,
    target (parse_command "please lock the screen") = Some t /\ t <> "" /\
    confidence (parse_command "please lock the screen") = Some c /\
    (c <? 0.5)%float = false.
Proof.
  apply (file_and_system_resolve "please lock the screen" "system_control").
  - reflexivity.
  - now right.
Defined.

(** X3.  The action is [unknown] exactly when no trigger word occurs in the
    normalised text; the intent is then the initial one. *)
Theorem unknown_iff_no_trigger (command : string) :
  (action (parse_command command) = Some "unknown" <->
   forall word, In word trigger_words ->
                contains word (strip (lower command)) = false) /\
  (action (parse_command command) = Some "unknown" ->
   parse_command command = unknown_intent command).
Proof.
  rewrite <- any_in_false, any_in_trigger_words.
  unfold parse_command, parse_command_with. cbv zeta.
  set (cl := strip (lower command)). set (i0 := unknown_intent command).
  destruct (NLUFacts.detect_open_cases intent_patterns cl i0) as [E|A].
  2: { rewrite !(NLUFacts.known_action _ _ A) by discriminate.
       unfold detect_open in A |- *.
       destruct (any_in (open_keywords intent_patterns) cl);
         [|discriminate A].
       split; [split; [congruence | discriminate] | congruence]. }
  assert (Ko : any_in (open_keywords intent_patterns) cl = false).
  { unfold detect_open in E.
    destruct (any_in (open_keywords intent_patterns) cl); [|reflexivity].
    apply (f_equal action) in E.
    now destruct (first_target (open_apps intent_patterns) cl). }
  rewrite E, Ko. change (action_is_unknown i0) with true. cbv iota.
  destruct (NLUFacts.detect_file_cases intent_patterns command cl i0)
    as [E'|A].
  2: { rewrite !(NLUFacts.known_action _ _ A) by discriminate.
       unfold detect_file in A |- *.
       destruct (any_in (file_keywords intent_patterns) cl);
         [|discriminate A].
       split; [split; [congruence | discriminate] | congruence]. }
  assert (Kf : any_in (file_keywords intent_patterns) cl = false).
  { destruct (any_in (file_keywords intent_patterns) cl) eqn:K;
      [|reflexivity].
    destruct (file_target_resolved cl K) as [t T].
    unfold detect_file in E'. rewrite K, T in E'.
    apply (f_equal action) in E'.
    destruct (contains "file" cl || contains "document" cl);
      [destruct (filename_after (split command))|]; discriminate E'. }
  rewrite E', Kf. change (action_is_unknown i0) with true. cbv iota.
  unfold detect_system.
  destruct (List.find _ (system_keywords intent_patterns)).
  { split; [split; discriminate | discriminate]. }
  change (action_is_unknown i0) with true. cbv iota.
  unfold detect_content.
  destruct (existsb _ (content_keywords intent_patterns)).
  - split; [split; [|discriminate] | ];
      now destruct (List.find _ (content_types intent_patterns));
      [destruct (contains "about" cl)|].
  - now repeat split.
Qed.

(** X4.  The only parameters the classifier produces are [filename], on a
    [file_operation] intent, and [topic], on a [content_creation] intent; a
    file name is one of the white-space separated words of the command as
    typed: it is not empty and holds no white space. *)
Theorem parameters_of_intent (command key value : string)
    (params : gmap string string) :
  parameters (parse_command command) = Some params ->
  params !! key = Some value ->
  (key = "filename" /\
   action (parse_command command) = Some "file_operation" /\
   In value (split command) /\
   free_of_space value = true /\ value <> "") \/
  (key = "topic" /\
   action (parse_command command) = Some "content_creation").
Proof.
  destruct (parse_command_shape command) as [a [t [p [c [E H]]]]].
  rewrite E. simpl. intros [= <-] Hk.
  assert (He : (∅ : gmap string string) !! key = Some value -> False)
    by (rewrite lookup_empty; discriminate).
  destruct H as [[-> [_ [_ ->]]]
               |[[-> [-> _]]
               |[[-> [_ [_ [->|[name [Hin ->]]]]]]
               |[[-> [-> _]]
               |[-> [[_ [_ ->]]|[_ [_ [->|[topic ->]]]]]]]]]];
    try (now elim He).
  - left. apply lookup_singleton_Some in Hk as [<- <-].
    destruct (split_tokens command name Hin). now repeat split.
  - right. apply lookup_singleton_Some in Hk as [<- _]. now split.
Qed.

Lemma parameters_of_intent_witness :
  ("filename" = "filename" /\
   action (parse_command "Delete file  Notes.txt now")
   = Some "file_operation" /\
   In "Notes.txt" (split "Delete file  Notes.txt now") /\
   free_of_space "Notes.txt" = true /\ "Notes.txt" <> "") \/
  ("filename" = "topic" /\
   action (parse_command "Delete file  Notes.txt now")
   = Some "content_creation").
Proof.
  apply (parameters_of_intent "Delete file  Notes.txt now" "filename"
           "Notes.txt" {[ "filename" := "Notes.txt" ]}).
  - reflexivity.
  - reflexivity.
Defined.

(** X5.  Letter case and surrounding white space do not matter to the
    classification: two commands with the same normalised text get the same
    action, target and confidence. *)
Theorem classification_normalised (command1 command2 : string) :
  strip (lower command1) = strip (lower command2) ->
  action (parse_command command1) = action (parse_command command2) /\
  target (parse_command command1) = target (parse_command command2) /\
  confidence (parse_command command1) = confidence (parse_command command2).
Proof.
  intros H. unfold parse_command, parse_command_with. cbv zeta.
  rewrite H. set (cl := strip (lower command2)).
  unfold detect_open.
  destruct (any_in (open_keywords intent_patterns) cl).
  { now destruct (first_target (open_apps intent_patterns) cl). }
  change (action_is_unknown (unknown_intent command1)) with true.
  change (action_is_unknown (unknown_intent command2)) with true.
  cbv iota. unfold detect_file.
  destruct (any_in (file_keywords intent_patterns) cl).
  { destruct (first_target (file_actions intent_patterns) cl);
      [|now repeat split].
    destruct (contains "file" cl || contains "document" cl);
      [|now repeat split].
    now destruct (filename_after (split command1)),
                 (filename_after (split command2)). }
  change (action_is_unknown (unknown_intent command1)) with true.
  change (action_is_unknown (unknown_intent command2)) with true.
  cbv iota. unfold detect_system.
  destruct (List.find _ (system_keywords intent_patterns)).
  { now repeat split. }
  change (action_is_unknown (unknown_intent command1)) with true.
  change (action_is_unknown (unknown_intent command2)) with true.
  cbv iota. unfold detect_content.
  destruct (existsb _ (content_keywords intent_patterns));
    [|now repeat split].
  destruct (List.find _ (content_types intent_patterns));
    [|now repeat split].
  now destruct (contains "about" cl).
Qed.

Lemma classification_normalised_witness :
  action (parse_command "  OPEN the Text Editor ")
  = action (parse_command "open the text editor") /\
  target (parse_command "  OPEN the Text Editor ")
  = target (parse_command "open the text editor") /\
  confidence (parse_command "  OPEN the Text Editor ")
  = confidence (parse_command "open the text editor").
Proof.
  apply (classification_normalised "  OPEN the Text Editor "
           "open the text editor").
  reflexivity.
Defined.

(** ** The handlers, beyond the claims *)

Ltac run_dispatch :=
  unfold execute_intent, dispatch, _execute_app_launch,
    _execute_file_operation, _execute_system_control,
    _execute_content_creation, mbind, py_bind, fmap, py_fmap, bind,
    try_except, time_time, getitem, ret, raise, path_exists, path_touch,
    write_file, os_remove, spawn, of_handler, with_execution_time.

(** X6.  An application without entry in the launch table of the platform:
    the result has [success] false and names the application, no exception
    is raised or caught, and the world differs only in the two clock
    readings: nothing is launched. *)
Theorem unsupported_application (env : Env) (config : Config)
    (intent : Intent) (app_name : string) (w : World) :
  action intent = Some "open_application" ->
  target intent = Some app_name ->
  _get_app_commands env !! app_name = None ->
  exists r,
    execute_intent env config intent w
    = (Ret r, with_clock_reads (S (S (clock_reads w))) w) /\
    success r = false /\
    message r
    = "Application '" ++ app_name ++ "' not supported or not found" /\
    error r = None.
Proof.
  intros Ha Ht Hc. eexists. split.
  - run_dispatch. rewrite Ha, Ht. simpl. rewrite Hc. reflexivity.
  - now repeat split.
Qed.

Lemma unsupported_application_witness :
  exists r,
    execute_intent sample_env sample_config (parse_command "open excel")
      initial_world
    = (Ret r, with_clock_reads 2 initial_world) /\
    success r = false /\
    message r = "Application '" ++ "excel" ++ "' not supported or not found" /\
    error r = None.
Proof.
  exact (unsupported_application sample_env sample_config
           (parse_command "open excel") "excel" initial_world
           eq_refl eq_refl eq_refl).
Defined.

(** X7.  The launch table against the classifier: an application the
    classifier can name has a launch command exactly when the platform is
    Windows or the application is none of powershell, word and excel. *)
Theorem launch_table_coverage (env : Env) (app_name : string) :
  In app_name (map fst (open_apps intent_patterns)) ->
  (is_Some (_get_app_commands env !! app_name) <->
   platform env = Windows \/
   ~ In app_name ["powershell"; "word"; "excel"]).
Proof.
  intros Hin. unfold _get_app_commands.
  simpl in Hin.
  destruct (platform env);
    destruct Hin as [<-|[<-|[<-|[<-|[<-|[<-|[<-|[<-|[<-|[]]]]]]]]]];
    (split;
     [ intros H; first [ now left
                       | right; simpl; intuition discriminate
                       | exfalso; destruct H as [x Hx]; vm_compute in Hx;
                         discriminate ]
     | intros H; first [ now eexists
                       | exfalso; destruct H as [H|H];
                         [discriminate | apply H; simpl; tauto] ] ]).
Qed.

Lemma launch_table_coverage_witness :
  is_Some (_get_app_commands sample_env !! "excel") <->
  platform sample_env = Windows \/
  ~ In "excel" ["powershell"; "word"; "excel"].
Proof.
  apply (launch_table_coverage sample_env "excel"). simpl. tauto.
Defined.

(** X8.  An application with a launch command: the command is started once,
    through the shell on Windows and as the words of the command elsewhere,
    and the result has [success] true; when the start is refused nothing is
    started and the result has [success] false with the reason in its
    message.  Either way no exception crosses the handler and no file is
    touched. *)
Theorem application_launch (env : Env) (config : Config) (intent : Intent)
    (app_name command : string) (w : World) :
  action intent = Some "open_application" ->
  target intent = Some app_name ->
  _get_app_commands env !! app_name = Some command ->
  command <> "" ->
  let started :=
    if is_windows env then PopenShell command else Popen (split command) in
  exists r w',
    execute_intent env config intent w = (Ret r, w') /\
    error r = None /\ files w' = files w /\
    match spawn_error env started with
    | None =>
        success r = true /\
        message r = "Successfully launched " ++ app_name /\
        spawned w' = (spawned w ++ [started])%list
    | Some text =>
        success r = false /\
        message r = "Failed to launch " ++ app_name ++ ": " ++ text /\
        spawned w' = spawned w
    end.
Proof.
  intros Ha Ht Hc Hne started. subst started.
  run_dispatch. rewrite Ha, Ht. simpl. rewrite Hc.
  destruct command as [|c command]; [congruence|].
  destruct (spawn_error env _) as [text|]; simpl;
    eexists _, _; (split; [reflexivity|]); now repeat split.
Qed.

Lemma application_launch_witness :
  exists r w',
    execute_intent sample_env sample_config (parse_command "open notepad")
      initial_world = (Ret r, w') /\
    error r = None /\ files w' = files initial_world /\
    success r = true /\
    message r = "Successfully launched " ++ "notepad" /\
    spawned w' = [Popen ["open"; "-a"; "TextEdit"]].
Proof.
  exact (application_launch sample_env sample_config
           (parse_command "open notepad") "notepad" "open -a TextEdit"
           initial_world eq_refl eq_refl eq_refl
           ltac:(discriminate)).
Defined.

(** X9.  [create] never harms an existing file: when the operating system
    accepts the operation, the file exists afterwards with the content it
    had, or empty if it did not exist, and every other file is as before. *)
Theorem create_keeps_content (env : Env) (config : Config) (intent : Intent)
    (params : gmap string string) (w : World) :
  action intent = Some "file_operation" ->
  target intent = Some "create" ->
  parameters intent = Some params ->
  let filename := default "untitled.txt" (params !! "filename") in
  fs_error env Touch filename = None ->
  exists r w',
    execute_intent env config intent w = (Ret r, w') /\
    success r = true /\ message r = "Created file: " ++ filename /\
    files w' !! filename = Some (default "" (files w !! filename)) /\
    forall other, other <> filename -> files w' !! other = files w !! other.
Proof.
  intros Ha Ht Hp filename Hf.
  run_dispatch. rewrite Ha, Ht, Hp. simpl. fold filename. rewrite Hf.
  destruct (files w !! filename) as [old|] eqn:E; simpl;
    eexists _, _; (split; [reflexivity|]); simpl; repeat split.
  - exact E.
  - apply lookup_insert_eq.
  - intros other Ho. now apply lookup_insert_ne.
Qed.

Lemma create_keeps_content_witness :
  exists r w',
    execute_intent sample_env sample_config
      (file_intent "create" {[ "filename" := "draft.txt" ]})
      (with_files {[ "draft.txt" := "first lines" ]} initial_world)
    = (Ret r, w') /\
    success r = true /\ message r = "Created file: " ++ "draft.txt" /\
    files w' !! "draft.txt" = Some "first lines" /\
    forall other, other <> "draft.txt" ->
      files w' !! other
      = files (with_files {[ "draft.txt" := "first lines" ]} initial_world)
        !! other.
Proof.
  exact (create_keeps_content sample_env sample_config
           (file_intent "create" {[ "filename" := "draft.txt" ]})
           {[ "filename" := "draft.txt" ]}
           (with_files {[ "draft.txt" := "first lines" ]} initial_world)
           eq_refl eq_refl eq_refl eq_refl).
Defined.

(** X10.  [write] then [delete]: when the operating system accepts both,
    the write leaves the file with the given content (or "Sample content"),
    replacing what it held, and the delete that follows succeeds and leaves
    the files as they were without this one. *)
Theorem write_then_delete (env : Env) (config : Config)
    (write_intent remove_intent : Intent)
    (params1 params2 : gmap string string) (w : World) :
  action write_intent = Some "file_operation" ->
  target write_intent = Some "write" ->
  parameters write_intent = Some params1 ->
  action remove_intent = Some "file_operation" ->
  target remove_intent = Some "delete" ->
  parameters remove_intent = Some params2 ->
  let filename := default "untitled.txt" (params1 !! "filename") in
  default "untitled.txt" (params2 !! "filename") = filename ->
  fs_error env OpenWrite filename = None ->
  fs_error env Remove filename = None ->
  exists r1 w1 r2 w2,
    execute_intent env config write_intent w = (Ret r1, w1) /\
    success r1 = true /\
    files w1 !! filename
    = Some (default "Sample content" (params1 !! "content")) /\
    execute_intent env config remove_intent w1 = (Ret r2, w2) /\
    success r2 = true /\ message r2 = "Deleted file: " ++ filename /\
    files w2 = delete filename (files w).
Proof.
  intros Ha1 Ht1 Hp1 Ha2 Ht2 Hp2 filename Hsame Hw Hr.
  eexists _, _, _, _. split; [|split; [|split; [|split]]].
  - run_dispatch. rewrite Ha1, Ht1, Hp1. simpl. fold filename. rewrite Hw.
    reflexivity.
  - reflexivity.
  - simpl. apply lookup_insert_eq.
  - run_dispatch. rewrite Ha2, Ht2, Hp2. simpl. rewrite Hsame.
    rewrite lookup_insert_eq.
    rewrite bool_decide_eq_true_2 by (now eexists).
    rewrite Hr. reflexivity.
  - simpl. repeat split. apply delete_insert_eq.
Qed.

Lemma write_then_delete_witness :
  exists r1 w1 r2 w2,
    execute_intent sample_env sample_config
      (file_intent "write" {[ "filename" := "draft.txt" ]}) initial_world
    = (Ret r1, w1) /\
    success r1 = true /\
    files w1 !! "draft.txt" = Some "Sample content" /\
    execute_intent sample_env sample_config
      (file_intent "delete" {[ "filename" := "draft.txt" ]}) w1
    = (Ret r2, w2) /\
    success r2 = true /\ message r2 = "Deleted file: " ++ "draft.txt" /\
    files w2 = delete "draft.txt" (files initial_world).
Proof.
  exact (write_then_delete sample_env sample_config
           (file_intent "write" {[ "filename" := "draft.txt" ]})
           (file_intent "delete" {[ "filename" := "draft.txt" ]})
           {[ "filename" := "draft.txt" ]} {[ "filename" := "draft.txt" ]}
           initial_world eq_refl eq_refl eq_refl eq_refl eq_refl eq_refl
           eq_refl eq_refl eq_refl).
Defined.

(** X11.  A [create] or a [delete] of an existing file that the operating
    system refuses: the handler catches the exception, the result has
    [success] false and the message "File operation failed:" with the
    reason, [error] stays unset, and no file changes.  Both are one call of
    the operating system, which either takes place or does not. *)
Theorem file_operation_refused (env : Env) (config : Config)
    (intent : Intent) (operation text : string)
    (params : gmap string string) (w : World) :
  action intent = Some "file_operation" ->
  target intent = Some operation ->
  parameters intent = Some params ->
  let filename := default "untitled.txt" (params !! "filename") in
  (operation = "create" /\ fs_error env Touch filename = Some text) \/
  (operation = "delete" /\ is_Some (files w !! filename) /\
   fs_error env Remove filename = Some text) ->
  exists r,
    execute_intent env config intent w
    = (Ret r, with_clock_reads (S (S (clock_reads w))) w) /\
    success r = false /\
    message r = "File operation failed: " ++ text /\
    error r = None.
Proof.
  intros Ha Ht Hp filename H. eexists. split.
  - run_dispatch. rewrite Ha, Ht, Hp. simpl. fold filename.
    destruct H as [[-> Hf]|[-> [He Hf]]]; simpl.
    + rewrite Hf. reflexivity.
    + rewrite bool_decide_eq_true_2 by exact He. rewrite Hf. reflexivity.
  - now repeat split.
Qed.

(** X12.  The file operations without implementation: for every target
    other than [create], [write] and [delete] (the classifier also names
    [save], [copy] and [move]) the result has [success] false and says
    so, and the world differs only in the two clock readings. *)
Theorem file_operation_not_implemented (env : Env) (config : Config)
    (intent : Intent) (operation : string)
    (params : gmap string string) (w : World) :
  action intent = Some "file_operation" ->
  target intent = Some operation ->
  parameters intent = Some params ->
  ~ In operation ["create"; "write"; "delete"] ->
  exists r,
    execute_intent env config intent w
    = (Ret r, with_clock_reads (S (S (clock_reads w))) w) /\
    success r = false /\
    message r = "File operation '" ++ operation ++ "' not implemented" /\
    error r = None.
Proof.
  intros Ha Ht Hp Hn. eexists. split.
  - run_dispatch. rewrite Ha, Ht, Hp. simpl.
    assert (H1 : String.eqb operation "create" = false)
      by (apply String.eqb_neq; intros ->; apply Hn; simpl; tauto).
    assert (H2 : String.eqb operation "write" = false)
      by (apply String.eqb_neq; intros ->; apply Hn; simpl; tauto).
    assert (H3 : String.eqb operation "delete" = false)
      by (apply String.eqb_neq; intros ->; apply Hn; simpl; tauto).
    rewrite H1, H2, H3. reflexivity.
  - now repeat split.
Qed.

Lemma file_operation_not_implemented_witness :
  exists r,
    execute_intent sample_env sample_config
      (parse_command "copy file notes.txt") initial_world
    = (Ret r, with_clock_reads 2 initial_world) /\
    success r = false /\
    message r = "File operation '" ++ "copy" ++ "' not implemented" /\
    error r = None.
Proof.
  exact (file_operation_not_implemented sample_env sample_config
           (parse_command "copy file notes.txt") "copy"
           {[ "filename" := "notes.txt" ]} initial_world
           ltac:(vm_compute; reflexivity) ltac:(vm_compute; reflexivity)
           ltac:(vm_compute; reflexivity)
           ltac:(simpl; intuition discriminate)).
Defined.

Lemma file_operation_refused_witness :
  exists r,
    execute_intent locked_env sample_config
      (file_intent "create" {[ "filename" := "draft.txt" ]}) initial_world
    = (Ret r, with_clock_reads 2 initial_world) /\
    success r = false /\
    message r
    = "File operation failed: " ++ "[Errno 13] Permission denied" /\
    error r = None.
Proof.
  exact (file_operation_refused locked_env sample_config
           (file_intent "create" {[ "filename" := "draft.txt" ]})
           "create" "[Errno 13] Permission denied"
           {[ "filename" := "draft.txt" ]} initial_world
           eq_refl eq_refl eq_refl
           (or_introl (conj eq_refl eq_refl))).
Defined.

(** X13.  System control without a command: for every target other than
    [shutdown], [restart] and [lock] (the classifier also names [sleep] and
    [hibernate]) the handler runs nothing and still reports "System ...
    initiated" with [success] true. *)
Theorem system_control_without_command (env : Env) (config : Config)
    (intent : Intent) (act : string) (w : World) :
  action intent = Some "system_control" ->
  target intent = Some act ->
  ~ In act ["shutdown"; "restart"; "lock"] ->
  exists r,
    execute_intent env config intent w
    = (Ret r, with_clock_reads (S (S (clock_reads w))) w) /\
    success r = true /\
    message r = "System " ++ act ++ " initiated" /\
    error r = None.
Proof.
  intros Ha Ht Hn. eexists. split.
  - run_dispatch. rewrite Ha, Ht. simpl.
    assert (H1 : String.eqb act "shutdown" = false)
      by (apply String.eqb_neq; intros ->; apply Hn; simpl; tauto).
    assert (H2 : String.eqb act "restart" = false)
      by (apply String.eqb_neq; intros ->; apply Hn; simpl; tauto).
    assert (H3 : String.eqb act "lock" = false)
      by (apply String.eqb_neq; intros ->; apply Hn; simpl; tauto).
    rewrite H1, H2, H3. now destruct (is_windows env).
  - now repeat split.
Qed.

Lemma system_control_without_command_witness :
  exists r,
    execute_intent sample_env sample_config
      (parse_command "hibernate the laptop") initial_world
    = (Ret r, with_clock_reads 2 initial_world) /\
    success r = true /\
    message r = "System " ++ "hibernate" ++ " initiated" /\
    error r = None.
Proof.
  exact (system_control_without_command sample_env sample_config
           (parse_command "hibernate the laptop") "hibernate" initial_world
           eq_refl eq_refl ltac:(simpl; intuition discriminate)).
Defined.

(** X14.  Content creation writes before it opens the editor: when the file
    can be written, it holds the template of the content type (or "Content
    about <topic>") under the name <type>_<topic with _ for spaces>.txt,
    whether the editor starts or not; but when the editor cannot be
    started the result has [success] false and the message "Content
    creation failed:" with the reason. *)
Theorem content_written_before_editor (env : Env) (config : Config)
    (intent : Intent) (content_type : string)
    (params : gmap string string) (w : World) :
  action intent = Some "content_creation" ->
  target intent = Some content_type ->
  parameters intent = Some params ->
  let topic := default "general topic" (params !! "topic") in
  let filename :=
    content_type ++ "_" ++ replace_char " " "_" topic ++ ".txt" in
  let content :=
    default ("Content about " ++ topic)
            (content_templates topic !! content_type) in
  let editor :=
    Popen [if is_windows env then "notepad.exe" else "gedit"; filename] in
  fs_error env OpenWrite filename = None ->
  exists r w',
    execute_intent env config intent w = (Ret r, w') /\
    error r = None /\
    files w' = <[filename := content]> (files w) /\
    match spawn_error env editor with
    | None =>
        success r = true /\ spawned w' = (spawned w ++ [editor])%list /\
        message r
        = "Created " ++ content_type ++ " about " ++ topic ++ ": "
          ++ filename
    | Some text =>
        success r = false /\ spawned w' = spawned w /\
        message r = "Content creation failed: " ++ text
    end.
Proof.
  intros Ha Ht Hp topic filename content editor Hf.
  run_dispatch. rewrite Ha, Ht, Hp. simpl.
  fold topic. fold filename. fold content. rewrite Hf.
  unfold editor. simpl.
  destruct (spawn_error env _) as [text|]; simpl;
    eexists _, _; (split; [reflexivity|]); now repeat split.
Qed.

Lemma content_written_before_editor_witness :
  exists r w',
    execute_intent editorless_env sample_config
      (parse_command "draft a letter about the rent") initial_world
    = (Ret r, w') /\
    error r = None /\
    files w' !! "letter_the_rent.txt"
    = Some ("Dear [Recipient]," ++ nl ++ nl ++ "Regarding: the rent"
            ++ nl ++ nl ++ "Sincerely," ++ nl ++ "[Your Name]") /\
    success r = false /\ spawned w' = [] /\
    message r
    = "Content creation failed: [Errno 2] No such file or directory".
Proof.
  destruct (content_written_before_editor editorless_env sample_config
              (parse_command "draft a letter about the rent") "letter"
              {[ "topic" := "the rent" ]} initial_world
              ltac:(vm_compute; reflexivity) ltac:(vm_compute; reflexivity)
              ltac:(vm_compute; reflexivity) ltac:(vm_compute; reflexivity))
    as [r [w' [E [He [Hf [Hs [Hp Hm]]]]]]].
  exists r, w'. repeat split; try assumption.
  rewrite Hf. reflexivity.
Defined.

(** X16.  An action outside the four groups: the result has [success]
    false and the message "Unknown command:" with the original command;
    nothing else happens and no exception is raised. *)
Theorem unknown_action (env : Env) (config : Config) (intent : Intent)
    (a command : string) (w : World) :
  action intent = Some a ->
  original_command intent = Some command ->
  ~ In a ["open_application"; "file_operation"; "system_control";
          "content_creation"] ->
  exists r,
    execute_intent env config intent w
    = (Ret r, with_clock_reads (S (S (clock_reads w))) w) /\
    success r = false /\
    message r = "Unknown command: " ++ command /\
    error r = None.
Proof.
  intros Ha Ho Hn. eexists. split.
  - run_dispatch. rewrite Ha, Ho. simpl.
    assert (H1 : String.eqb a "open_application" = false)
      by (apply String.eqb_neq; intros ->; apply Hn; simpl; tauto).
    assert (H2 : String.eqb a "file_operation" = false)
      by (apply String.eqb_neq; intros ->; apply Hn; simpl; tauto).
    assert (H3 : String.eqb a "system_control" = false)
      by (apply String.eqb_neq; intros ->; apply Hn; simpl; tauto).
    assert (H4 : String.eqb a "content_creation" = false)
      by (apply String.eqb_neq; intros ->; apply Hn; simpl; tauto).
    rewrite H1, H2, H3, H4. reflexivity.
  - now repeat split.
Qed.

Lemma unknown_action_witness :
  exists r,
    execute_intent sample_env sample_config (parse_command "asdkj qwoei")
      initial_world
    = (Ret r, with_clock_reads 2 initial_world) /\
    success r = false /\
    message r = "Unknown command: " ++ "asdkj qwoei" /\
    error r = None.
Proof.
  exact (unknown_action sample_env sample_config
           (parse_command "asdkj qwoei") "unknown" "asdkj qwoei"
           initial_world eq_refl eq_refl
           ltac:(simpl; intuition discriminate)).
Defined.

(** ** The pipeline, beyond the claims *)

Section ReturnFacts.
Variable env : Env.

Lemma returns_ret {A} (P : A -> Prop) (a : A) :
  P a -> returns P (ret a).
Proof. intros H w. now exists a, w. Qed.

Lemma returns_bind {A B} (P : B -> Prop) (m : Py A) (k : A -> Py B) :
  returns (fun _ => True) m -> (forall a, returns P (k a)) ->
  returns P (m ≫= k).
Proof.
  intros Hm Hk w. unfold mbind, py_bind, bind.
  destruct (Hm w) as [a [w1 [E _]]]. rewrite E. apply Hk.
Qed.

Lemma returns_fmap {A B} (P : B -> Prop) (f : A -> B) (m : Py A) :
  returns (fun _ => True) m -> (forall a, P (f a)) -> returns P (f <$> m).
Proof.
  intros Hm Hf w. unfold fmap, py_fmap, bind.
  destruct (Hm w) as [a [w1 [E _]]]. rewrite E. now exists (f a), w1.
Qed.

Lemma returns_try {A} (m : Py A) (h : PyExn -> Py A) :
  (forall e, returns (fun _ => True) (h e)) ->
  returns (fun _ => True) (try_except m h).
Proof.
  intros Hh w. unfold try_except. destruct (m w) as [[a|e] w1].
  - now exists a, w1.
  - apply Hh.
Qed.

Lemma returns_getitem {A} key (v : A) :
  returns (fun _ => True) (getitem key (Some v)).
Proof. intros w. now exists v, w. Qed.

Ltac returns :=
  repeat first
    [ apply returns_getitem | apply returns_try
    | apply returns_ret; exact I | apply returns_bind
    | match goal with
      | |- forall _, _ => intro
      | |- returns _ (if ?b then _ else _) => destruct b
      | |- returns _ (match ?x with _ => _ end) => destruct x
      end ].

(** An intent with its keys present is dispatched without a fault. *)
Lemma dispatch_returns a t p c o :
  returns (fun r => error r = None /\ screenshot r = None)
    (dispatch env (mkIntent (Some a) (Some t) (Some p) c (Some o))).
Proof.
  unfold dispatch. cbn [action target parameters original_command].
  apply returns_bind; [apply returns_getitem|]. intros a'.
  repeat match goal with
         | |- returns _ (if ?b then _ else _) => destruct b
         end.
  - apply returns_fmap; [|now split].
    unfold _execute_app_launch. cbn [target]. returns.
  - apply returns_fmap; [|now split].
    unfold _execute_file_operation. cbn [target parameters]. returns.
  - apply returns_fmap; [|now split].
    unfold _execute_system_control. cbn [target]. returns.
  - apply returns_fmap; [|now split].
    unfold _execute_content_creation. cbn [target parameters]. returns.
  - apply returns_bind; [apply returns_getitem|]. intros o'.
    apply returns_ret. now split.
Qed.

End ReturnFacts.

(** X15.  The classifier and the dispatcher fit: whatever the command and
    whatever the operating system answers, the dispatch of a classified
    intent takes no fault path.  The result carries no [error] and no
    [screenshot], and the logger gets no line. *)
Theorem classified_intent_dispatch (env : Env) (config : Config)
    (command : string) (w : World) :
  exists r w',
    execute_intent env config (parse_command command) w = (Ret r, w') /\
    error r = None /\ screenshot r = None /\ logged w' = logged w.
Proof.
  destruct (parse_command_shape command) as [a [t [p [c [E _]]]]].
  rewrite E.
  destruct (dispatch_returns env a t p (Some c) command
              (with_clock_reads (S (clock_reads w)) w))
    as [r0 [w1 [D [He Hs]]]].
  pose proof (frame_dispatch env logged (fun _ _ => eq_refl)
                (fun _ _ => eq_refl)
                (mkIntent (Some a) (Some t) (Some p) (Some c) (Some command))
                (with_clock_reads (S (clock_reads w)) w)) as F.
  rewrite D in F. simpl in F.
  unfold execute_intent, mbind, py_bind, bind, try_except, time_time.
  rewrite D. eexists _, _. split; [reflexivity|]. now repeat split.
Qed.

Section SessionFacts.
Variable env : Env.
Variable config : Config.

Lemma count_snoc {A} (p : A -> bool) l x :
  Collector.count p (l ++ [x])
  = (Collector.count p l + if p x then 1 else 0)%Z.
Proof.
  unfold Collector.count. rewrite List.filter_app, List.length_app. simpl.
  destruct (p x); simpl; lia.
Qed.

(** The confidence test of [process_command] is a test on the target: the
    confidence is below 0.5 exactly when the target is empty. *)
Lemma gate_by_target command :
  exists t c,
    target (parse_command command) = Some t /\
    confidence (parse_command command) = Some c /\
    ((t = "" /\ (c <? 0.5)%float = true) \/
     (t <> "" /\ (c <? 0.5)%float = false)).
Proof.
  destruct (parse_command_shape command) as [a [t [p [c [E H]]]]].
  exists t, c. rewrite E. split; [reflexivity|]. split; [reflexivity|].
  destruct H as [[_ [-> [-> _]]]
               |[[_ [_ [[-> ->]|[Ht ->]]]]
               |[[_ [Ht [-> _]]]
               |[[_ [_ [Ht ->]]]
               |[_ [[-> [-> _]]|[Ht [-> _]]]]]]]];
    try (left; now split);
    (right; split; [apply table_targets_named; tauto | reflexivity]).
Qed.

(** [record_result] does not read the clock, launch anything or touch a
    file of the user, whether the average could be computed or not. *)
Lemma record_result_frame command intent result w :
  let w' := world_after (record_result env config command intent result) w in
  clock_reads w' = clock_reads w /\ spawned w' = spawned w.
Proof.
  unfold world_after, record_result, mbind, py_bind, bind, update_metrics,
    get_metrics, modify, truediv, log_execution_result, respond, speak,
    print, raise, ret.
  destruct (success result); simpl;
    destruct (total_commands (metrics w) + 1 =? 0)%Z; simpl;
    destruct (voice_enabled config); simpl; now split.
Qed.

(** The counters stay consistent over a command, whatever its outcome. *)
Lemma process_command_consistent command w :
  consistent (metrics w) ->
  consistent (metrics (world_after (process_command env config command) w)).
Proof.
  intros Hc.
  destruct (confidence_some command) as [conf Hconf].
  unfold world_after.
  rewrite (process_command_unfold env config _ _ _ Hconf).
  destruct (conf <? 0.5)%float.
  - destruct (respond_run config (clarification command)
                (after_parse command w))
      as [w' [E [_ [_ [_ [_ [_ [Hm _]]]]]]]].
    rewrite E. simpl. now rewrite Hm.
  - destruct (execute_intent_returns env config metrics
                (fun _ _ => eq_refl) (fun _ _ => eq_refl)
                (fun _ _ => eq_refl) (fun _ _ => eq_refl)
                (parse_command command) (after_parse command w))
      as [r [w1 [E Hm]]].
    unfold mbind, py_bind, bind. rewrite E.
    pose proof (record_result_counts env config command
                  (parse_command command) r w1) as [Ht [Hs Hf]].
    unfold world_after in *. simpl in Hm. rewrite Hm in *.
    unfold consistent in *. destruct (success r); lia.
Qed.

End SessionFacts.

(** X18.  A command is dispatched and counted exactly when the classifier
    resolved a target, whatever becomes of the command afterwards.  With an
    empty target the clock is not read, and the metrics, the files and the
    launches are untouched.  With a target the dispatch takes place, with
    its two clock readings, and the count of commands grows by one. *)
Theorem dispatched_iff_target (env : Env) (config : Config)
    (command : string) (w : World) :
  exists t,
    target (parse_command command) = Some t /\
    let w' := world_after (process_command env config command) w in
    (t = "" ->
     clock_reads w' = clock_reads w /\ metrics w' = metrics w /\
     files w' = files w /\ spawned w' = spawned w) /\
    (t <> "" ->
     clock_reads w' = S (S (clock_reads w)) /\
     total_commands (metrics w') = (total_commands (metrics w) + 1)%Z).
Proof.
  destruct (gate_by_target command) as [t [c [Et [Hc Hg]]]].
  exists t. split; [exact Et|]. cbv zeta. unfold world_after.
  rewrite (process_command_unfold env config _ _ _ Hc).
  destruct Hg as [[-> Hg]|[Ht Hg]]; rewrite Hg.
  - split; [intros _ | intros H; now elim H].
    destruct (respond_run config (clarification command)
                (after_parse command w))
      as [w' [E' [Hf [Hs [Hk [_ [_ [Hm _]]]]]]]].
    rewrite E'. simpl. now repeat split.
  - split; [intros H; now elim Ht | intros _].
    destruct (execute_intent_returns env config metrics
                (fun _ _ => eq_refl) (fun _ _ => eq_refl)
                (fun _ _ => eq_refl) (fun _ _ => eq_refl)
                (parse_command command) (after_parse command w))
      as [r [w1 [E Hm]]].
    pose proof (execute_intent_reads_clock env config
                  (parse_command command) (after_parse command w)) as Hk.
    unfold world_after in Hk. rewrite E in Hk. simpl in Hk.
    unfold mbind, py_bind, bind. rewrite E.
    pose proof (record_result_counts env config command
                  (parse_command command) r w1) as [Ht' _].
    pose proof (record_result_frame env config command
                  (parse_command command) r w1) as [Hk' _].
    unfold world_after in *. simpl in Hm.
    split; [now rewrite Hk', Hk | now rewrite Ht', Hm].
Qed.

(** ** The metrics, beyond the claims *)

Module DashboardFacts.
Import Collector CollectorFacts Dashboard.

Lemma dict_get_bump key k cats :
  dict_get k (bump key cats)
  = if String.eqb key k
    then Some (default 0%Z (dict_get key cats) + 1)%Z
    else dict_get k cats.
Proof.
  unfold dict_get. induction cats as [|[k' n] rest IH]; simpl.
  - rewrite (String.eqb_sym key k). now destruct (String.eqb k key).
  - destruct (String.eqb_spec k' key) as [->|Hne]; simpl.
    + now destruct (String.eqb key k).
    + destruct (String.eqb_spec k' k) as [->|Hk].
      * now rewrite (proj2 (String.eqb_neq key k)) by congruence.
      * exact IH.
Qed.

Lemma zsum_bump key cats :
  zsum (map snd (bump key cats)) = (zsum (map snd cats) + 1)%Z.
Proof.
  induction cats as [|[k n] rest IH]; simpl; [reflexivity|].
  destruct (String.eqb k key); simpl; lia.
Qed.

Lemma count_nonneg {A} (p : A -> bool) l : (0 <= count p l)%Z.
Proof. unfold count. lia. Qed.

Lemma bumped_count (c : Z) :
  (0 <= c)%Z ->
  Some (default 0%Z (if (c =? 0)%Z then None else Some c) + 1)%Z
  = if (c + 1 =? 0)%Z then None else Some (c + 1)%Z.
Proof.
  intros H. destruct (Z.eqb_spec (c + 1) 0); [lia|].
  now destruct (Z.eqb_spec c 0) as [->|].
Qed.

(** The fold of [command_categories] from any dict that counts the records
    seen so far. *)
Lemma categories_fold data :
  forall seen cats,
    (forall k, dict_get k cats
               = if (count (fun d => String.eqb (entry_label d) k) seen =? 0)%Z
                 then None
                 else Some (count (fun d => String.eqb (entry_label d) k)
                              seen)) ->
    zsum (map snd cats) = Z.of_nat (length seen) ->
    let cats' := fold_left (fun cats d => bump (entry_label d) cats)
                           data cats in
    (forall k, dict_get k cats'
               = if (count (fun d => String.eqb (entry_label d) k)
                       (seen ++ data) =? 0)%Z
                 then None
                 else Some (count (fun d => String.eqb (entry_label d) k)
                              (seen ++ data))) /\
    zsum (map snd cats') = Z.of_nat (length (seen ++ data)).
Proof.
  induction data as [|d data IH]; intros seen cats Hget Hsum; cbv zeta.
  - rewrite app_nil_r. now split.
  - simpl fold_left.
    replace (seen ++ d :: data)%list with ((seen ++ [d]) ++ data)%list
      by now rewrite <- List.app_assoc.
    apply IH.
    + intros k. rewrite dict_get_bump, count_snoc, (Hget k), (Hget _).
      destruct (String.eqb_spec (entry_label d) k) as [->|Hk].
      * apply bumped_count, count_nonneg.
      * now rewrite Z.add_0_r.
    + rewrite zsum_bump, Hsum, List.length_app. simpl. lia.
Qed.

Lemma action_is_label c d : action_is c d = true -> entry_label d = c.
Proof.
  unfold action_is, entry_label, entry_action.
  destruct (entry_intent d ≫= action) as [a|]; [|discriminate].
  simpl. now intros ->%String.eqb_eq.
Qed.

Lemma count_cons {A} (p : A -> bool) x l :
  count p (x :: l) = ((if p x then 1 else 0) + count p l)%Z.
Proof. unfold count. simpl. destruct (p x); simpl; lia. Qed.

(** The records with a label are those with that action and, for
    "unknown", those without action. *)
Lemma label_split c data :
  count (fun d => String.eqb (entry_label d) c) data
  = (count (action_is c) data
     + if String.eqb c "unknown" then count without_action data else 0)%Z.
Proof.
  induction data as [|d data IH].
  - now destruct (String.eqb c "unknown").
  - rewrite !count_cons, IH.
    assert (H : (exists a, entry_action d = Some a /\ entry_label d = a) \/
                (entry_action d = None /\ entry_label d = "unknown")).
    { unfold entry_label, entry_action.
      destruct (entry_intent d ≫= action) as [a|]; [left | right]; eauto. }
    unfold action_is, without_action.
    destruct H as [[a [-> ->]]|[-> ->]].
    + destruct (String.eqb a c), (String.eqb c "unknown"); lia.
    + rewrite (String.eqb_sym "unknown" c).
      destruct (String.eqb c "unknown"); lia.
Qed.

End DashboardFacts.

Import Dashboard.

(** X20.  The categories count the records: [command_categories] holds for
    each label the number of records with that label (a record without
    action counts as "unknown") and no entry for a label that does not
    occur, so that the counts add up to the number of records. *)
Theorem categories_count_records (data : list LogEntry) :
  (forall category,
      dict_get category (command_categories data)
      = let n := count (fun d => String.eqb (entry_label d) category) data in
        if (n =? 0)%Z then None else Some n) /\
  zsum (map snd (command_categories data))
  = Z.of_nat (length data).
Proof.
  cbv zeta. apply (DashboardFacts.categories_fold data [] []).
  - reflexivity.
  - reflexivity.
Qed.

(** X21.  The performance of a category against its count: the [total] of
    an entry of [category_performance] is the number of records whose
    action is the category, at most the count of the category; both agree
    for every category but "unknown", whose count also holds the records
    without action, so that its [total] can be 0.  The successes are among
    the total. *)
Theorem category_performance_counts (data : list LogEntry)
    (category : string) (perf : CategoryPerformance) :
  In (category, perf) (category_performance data) ->
  exists n,
    dict_get category (command_categories data) = Some n /\
    (1 <= n)%Z /\
    cat_total perf = count (action_is category) data /\
    (0 <= cat_success perf <= cat_total perf)%Z /\
    n = (cat_total perf
         + if String.eqb category "unknown"
           then count without_action data else 0)%Z.
Proof.
  intros Hin. unfold category_performance in Hin.
  apply in_map_iff in Hin as [[c n] [[= <- <-] Hc]]. simpl.
  destruct (categories_count_records data) as [Hget _].
  cbv zeta in Hget.
  assert (Hn : dict_get c (command_categories data) <> None).
  { unfold dict_get. destruct (List.find _ (command_categories data))
      as [e|] eqn:F; [discriminate|].
    pose proof (find_none _ _ F _ Hc) as H. simpl in H.
    now rewrite String.eqb_refl in H. }
  rewrite Hget in Hn |- *.
  destruct (Z.eqb_spec (count (fun d => String.eqb (entry_label d) c) data)
              0) as [Hz|Hz]; [congruence|].
  eexists. split; [reflexivity|].
  pose proof (DashboardFacts.count_nonneg
                (fun d => String.eqb (entry_label d) c) data).
  split; [lia|]. split; [reflexivity|]. split.
  - split; [apply DashboardFacts.count_nonneg|].
    apply CollectorFacts.count_le_length.
  - apply DashboardFacts.label_split.
Qed.

Lemma category_performance_counts_witness :
  exists n,
    dict_get "unknown"
      (command_categories [mkLogEntry None None None None None]) = Some n /\
    (1 <= n)%Z /\
    cat_total (mkCategoryPerformance 0 0)
    = count (action_is "unknown") [mkLogEntry None None None None None] /\
    (0 <= cat_success (mkCategoryPerformance 0 0)
     <= cat_total (mkCategoryPerformance 0 0))%Z /\
    n = (cat_total (mkCategoryPerformance 0 0)
         + if String.eqb "unknown" "unknown"
           then count without_action [mkLogEntry None None None None None]
           else 0)%Z.
Proof.
  apply (category_performance_counts
           [mkLogEntry None None None None None] "unknown"
           (mkCategoryPerformance 0 0)).
  simpl. now left.
Defined.

(** ** The text loop *)

Section TextLoopFacts.
Variable env : Env.
Variable config : Config.

(** One command inside the [try] of the loop: it returns, whatever the
    command did, and the counters stay consistent. *)
Lemma guarded_command_run command w :
  exists w',
    try_except (process_command env config command)
      (fun e => text_loop_error (exn_str e)) w = (Ret tt, w') /\
    (consistent (metrics w) -> consistent (metrics w')).
Proof.
  pose proof (process_command_consistent env config command w) as H.
  unfold world_after in H. unfold try_except.
  destruct (process_command env config command w) as [[[]|e] w1].
  - exists w1. now split.
  - eexists. split; [reflexivity|]. exact H.
Qed.

Lemma text_loop_cons event rest w :
  text_loop env config (event :: rest) w
  = match event with
    | KeyboardInterrupt => print (nl ++ "Goodbye!")
    | InputFault text => text_loop_error text;; text_loop env config rest
    | Typed line =>
        match PyStr.strip line with
        | EmptyString => text_loop env config rest
        | _ =>
            if PyStr.mem (PyStr.lower (PyStr.strip line))
                 ["exit"; "quit"; "stop"]
            then print "Goodbye!"
            else
              try_except (process_command env config (PyStr.strip line))
                (fun e => text_loop_error (exn_str e));;
              text_loop env config rest
        end
    end (with_console (console w ++ [nl ++ "SmartOS> "]) w).
Proof. reflexivity. Qed.

End TextLoopFacts.

(** X23.  The text loop lets no exception out: whatever is typed, whatever
    the commands do and whatever state it starts in, the loop returns or
    waits for more input; and counters that are consistent (total =
    successes + failures) are so afterwards, also past the commands that
    raised. *)
Theorem text_loop_safe (env : Env) (config : Config) (inputs : list Input)
    (w : World) :
  exists w',
    text_loop env config inputs w = (Ret tt, w') /\
    (consistent (metrics w) -> consistent (metrics w')).
Proof.
  revert w. induction inputs as [|event rest IH]; intros w.
  - exists w. now split.
  - rewrite text_loop_cons.
    set (w0 := with_console (console w ++ [nl ++ "SmartOS> "]) w).
    assert (H0 : consistent (metrics w) -> consistent (metrics w0))
      by (intros H; exact H).
    destruct event as [line| |text].
    + destruct (PyStr.strip line) as [|c command] eqn:S.
      * destruct (IH w0) as [w' [E H]]. exists w'. split; [exact E|tauto].
      * destruct (PyStr.mem _ _).
        -- eexists. split; [reflexivity|]. exact H0.
        -- destruct (guarded_command_run env config (String c command) w0)
             as [w1 [E1 H1]].
           destruct (IH w1) as [w' [E H]].
           exists w'. split; [|tauto].
           unfold mbind, py_bind, bind. now rewrite E1.
    + eexists. split; [reflexivity|]. exact H0.
    + destruct (IH (world_after (text_loop_error text) w0)) as [w' [E H]].
      exists w'. split; [exact E|]. intros Hw. apply H. exact (H0 Hw).
Qed.

Lemma text_loop_safe_witness :
  exists w',
    text_loop sample_env sample_config
      [Typed "open notepad"; Typed ""; Typed "open foo";
       InputFault "EOF when reading a line"; Typed " Quit "; Typed "run calc"]
      (with_metrics (mkMetrics (-1) (-1) 0 0) initial_world) = (Ret tt, w') /\
    consistent (metrics w').
Proof.
  destruct (text_loop_safe sample_env sample_config
              [Typed "open notepad"; Typed ""; Typed "open foo";
               InputFault "EOF when reading a line"; Typed " Quit ";
               Typed "run calc"]
              (with_metrics (mkMetrics (-1) (-1) 0 0) initial_world))
    as [w' [E H]].
  exists w'. split; [exact E|]. apply H. reflexivity.
Defined.

(** X24.  The loop ends at the first exit word or interrupt: what would be
    typed after "exit", "quit" or "stop" (in any letter case, white space
    around it aside) has no effect. *)
Theorem text_loop_ends (env : Env) (config : Config)
    (before after : list Input) (event : Input) (w : World) :
  ends_session event = true ->
  text_loop env config (before ++ event :: after) w
  = text_loop env config (before ++ [event]) w.
Proof.
  intros He. revert w. induction before as [|first before IH]; intros w.
  - simpl app. rewrite !text_loop_cons.
    destruct event as [line| |text]; [|reflexivity|discriminate].
    unfold ends_session in He.
    destruct (PyStr.strip line) eqn:S; [discriminate He|].
    now rewrite He.
  - simpl app. rewrite !text_loop_cons.
    set (w0 := with_console (console w ++ [nl ++ "SmartOS> "]) w).
    destruct first as [line| |text].
    + destruct (PyStr.strip line) as [|c command]; [apply IH|].
      destruct (PyStr.mem _ _); [reflexivity|].
      unfold mbind, py_bind, bind.
      destruct (try_except _ _ w0) as [[[]|e] w1]; [apply IH|reflexivity].
    + reflexivity.
    + unfold mbind, py_bind, bind.
      destruct (text_loop_error text w0) as [[[]|e] w1];
        [apply IH|reflexivity].
Qed.

Lemma text_loop_ends_witness :
  text_loop sample_env sample_config
    ([Typed "open notepad"] ++ Typed " Quit " :: [Typed "delete file a.txt"])
    initial_world
  = text_loop sample_env sample_config
      ([Typed "open notepad"] ++ [Typed " Quit "]) initial_world.
Proof.
  apply (text_loop_ends sample_env sample_config [Typed "open notepad"]
           [Typed "delete file a.txt"] (Typed " Quit ") initial_world).
  reflexivity.
Defined.

Section ResponseFacts.
Variable env : Env.
Variable config : Config.

Lemma respond_told response w :
  exists w',
    respond config response w = (Ret tt, w') /\ told config response w w'.
Proof.
  unfold respond, speak, print, modify, told.
  destruct (voice_enabled config); eexists; (split; [reflexivity|]);
    now repeat split.
Qed.

(** When [record_result] returns, its last step was the feedback. *)
Lemma record_result_told command intent result w w' :
  record_result env config command intent result w = (Ret tt, w') ->
  told config
    (if success result then message result
     else "Failed to execute command: " ++ message result) w w'.
Proof.
  unfold record_result, mbind, py_bind, bind, update_metrics,
    get_metrics, modify, truediv, log_execution_result, respond, speak,
    print, raise, ret, told.
  destruct (success result); simpl;
    destruct (total_commands (metrics w) + 1 =? 0)%Z; simpl;
    try discriminate;
    destruct (voice_enabled config); simpl;
    intros E; injection E as <-; now split.
Qed.

End ResponseFacts.

(** X19.  A command that returns has given exactly one response: one line
    on the console, through [speak] when the voice is enabled.  It is the
    clarification request when no target was resolved, the message of the
    result of the dispatch when that succeeded, and "Failed to execute
    command:" with that message when it did not. *)
Theorem one_response_per_command (env : Env) (config : Config)
    (command : string) (w w' : World) :
  process_command env config command w = (Ret tt, w') ->
  exists response,
    told config response w w' /\
    ((target (parse_command command) = Some "" /\
      response = clarification command) \/
     (target (parse_command command) <> Some "" /\
      exists r w1,
        execute_intent env config (parse_command command)
          (after_parse command w) = (Ret r, w1) /\
        response = if success r then message r
                   else "Failed to execute command: " ++ message r)).
Proof.
  intros Hrun.
  destruct (gate_by_target command) as [t [c [Et [Hc Hg]]]].
  rewrite (process_command_unfold env config _ _ _ Hc) in Hrun.
  destruct Hg as [[-> Hg]|[Ht Hg]]; rewrite Hg in Hrun.
  - destruct (respond_told config (clarification command)
                (after_parse command w)) as [w2 [E T]].
    exists (clarification command). split; [|now left].
    assert (w2 = w') by congruence. subst w2. exact T.
  - destruct (execute_intent_returns env config
                (fun w => (console w, spoken w))
                (fun _ _ => eq_refl) (fun _ _ => eq_refl)
                (fun _ _ => eq_refl) (fun _ _ => eq_refl)
                (parse_command command) (after_parse command w))
      as [r [w1 [E F]]].
    injection F as Fc Fs.
    unfold mbind, py_bind, bind in Hrun. rewrite E in Hrun.
    destruct (record_result_told env config command
                (parse_command command) r w1 w' Hrun) as [Tc Ts].
    eexists. split.
    + split; [now rewrite Tc, Fc | now rewrite Ts, Fs].
    + right. split; [rewrite Et; congruence|].
      exists r, w1. now split.
Qed.

Lemma one_response_per_command_witness :
  exists response,
    told sample_config response initial_world
      (world_after
         (process_command locked_env sample_config "write file a.txt")
         initial_world) /\
    ((target (parse_command "write file a.txt") = Some "" /\
      response = clarification "write file a.txt") \/
     (target (parse_command "write file a.txt") <> Some "" /\
      exists r w1,
        execute_intent locked_env sample_config
          (parse_command "write file a.txt")
          (after_parse "write file a.txt" initial_world) = (Ret r, w1) /\
        response = if success r then message r
                   else "Failed to execute command: " ++ message r)).
Proof.
  apply (one_response_per_command locked_env sample_config
           "write file a.txt" initial_world).
  vm_compute. reflexivity.
Defined.
